(** * Installing a package from removable storage: install/fuse_sdcard_install.cpp

    A shallow embedding of [BrowseDirectory], [StartSdcardFuse], [is_ufs_dev],
    [do_sdcard_mount_for_ufs] and [ApplyFromStorage], the properties of
    them that the specification states, and further properties read off the
    code.

    Every call that leaves the file (system calls, the volume manager, the
    menu, the installer) is answered by a read-only [World] and recorded, in
    program order, in a trace of [Event]s, so that a statement about what the
    code calls, and how often, is a statement about that trace.  The
    [LOG(ERROR)] and [PLOG(ERROR)] lines, which influence nothing, are left
    out; so is the exit status [waitpid] stores, which only they read.

    The file has three parts: the program, the vocabulary of the statements,
    and the properties with their proofs. *)

From Stdlib Require Import String Ascii List Bool Arith ZArith NArith Lia.
From Stdlib Require Import Sorting.Mergesort Sorting.Sorted Sorting.Permutation Orders.
Import ListNotations.

Local Open Scope string_scope.
Local Open Scope list_scope.

(** * The program *)

(** ** Strings as the code uses them *)

Module Str.

(** [std::string::back] and [std::string::pop_back]. *)
Fixpoint back (s : string) : option ascii :=
  match s with
  | EmptyString => None
  | String c EmptyString => Some c
  | String _ rest => back rest
  end.

Fixpoint pop_back (s : string) : string :=
  match s with
  | EmptyString => EmptyString
  | String _ EmptyString => EmptyString
  | String c rest => String c (pop_back rest)
  end.

Definition empty (s : string) : bool :=
  match s with EmptyString => true | _ => false end.

(** [tolower] in the C locale. *)
Definition tolower (c : ascii) : ascii :=
  let n := N_of_ascii c in
  if ((65 <=? n) && (n <=? 90))%N then ascii_of_N (n + 32) else c.

Fixpoint map (f : ascii -> ascii) (s : string) : string :=
  match s with
  | EmptyString => EmptyString
  | String c rest => String (f c) (map f rest)
  end.

(** The last [n] characters of [s] (all of [s] when it is shorter). *)
Definition tail (n : nat) (s : string) : string :=
  substring (String.length s - n) n s.

(** [android::base::EndsWithIgnoreCase] (libbase): [s] is at least as long
    as [suffix] and its last [suffix.size()] characters equal [suffix] up to
    ASCII case. *)
Definition EndsWithIgnoreCase (s suffix : string) : bool :=
  (String.length suffix <=? String.length s)%nat
  && (map tolower (tail (String.length suffix) s) =? map tolower suffix).

(** The C string a [char*] denotes: the characters before the first NUL. *)
Fixpoint c_str (s : string) : string :=
  match s with
  | EmptyString => EmptyString
  | String c rest => if (c =? zero)%char then EmptyString else String c (c_str rest)
  end.

(** [strncmp(a, b, n) == 0] on NUL-terminated buffers: the first [n]
    characters agree, the comparison ending early at a common NUL. *)
Fixpoint strncmp_eq (a b : string) (n : nat) : bool :=
  match n with
  | O => true
  | S n' =>
      match c_str a, c_str b with
      | EmptyString, EmptyString => true
      | String x a', String y b' => (x =? y)%char && strncmp_eq a' b' n'
      | _, _ => false
      end
  end.

(** [sizeof] of a string literal counts the terminating NUL. *)
Definition sizeof_lit (s : string) : nat := S (String.length s).

(** [&buf[k]]: the buffer from offset [k]. *)
Definition from (k : nat) (s : string) : string :=
  substring k (String.length s - k) s.

End Str.

(** [std::sort] on a [std::vector<std::string>]: ascending for [operator<],
    which compares byte by byte.  Equal strings are indistinguishable, so the
    sorted vector is determined by its elements. *)
Module StringOrder <: TotalLeBool.
Definition t := string.
Definition leb := String.leb.
Theorem leb_total : forall a b, leb a b = true \/ leb b a = true.
Proof. exact String.leb_total. Qed.
End StringOrder.

Module StringSort := Sort StringOrder.

Definition std_sort (v : list string) : list string := StringSort.sort v.

(** ** Directory entries (<dirent.h>) *)

Inductive d_type_t :=
| DT_UNKNOWN | DT_FIFO | DT_CHR | DT_DIR | DT_BLK | DT_REG | DT_LNK | DT_SOCK | DT_WHT.

Record dirent := { d_name : string; d_type : d_type_t }.

(** The [readdir] loop of [BrowseDirectory]: [dirs] and [entries] grow by
    [push_back]. *)
Fixpoint read_entries (des : list dirent) (dirs entries : list string)
  : list string * list string :=
  match des with
  | [] => (dirs, entries)
  | de :: rest =>
      let name := d_name de in
      match d_type de with
      | DT_DIR =>
          if (name =? ".") || (name =? "..") then read_entries rest dirs entries
          else read_entries rest (dirs ++ [(name ++ "/")%string]) entries
      | DT_REG =>
          if Str.EndsWithIgnoreCase name ".zip"
          then read_entries rest dirs (entries ++ [name])
          else read_entries rest dirs entries
      | _ => read_entries rest dirs entries
      end
  end.

(** The vector handed to [ShowMenu]: [entries] starts as [{"../"}], both
    vectors are sorted, then [dirs] is appended to [entries]. *)
Definition menu_entries (des : list dirent) : list string :=
  let '(dirs, entries) := read_entries des [] ["../"] in
  std_sort entries ++ std_sort dirs.

(** ** Types of the collaborators *)

(** [pid_t], [int] return codes and [errno] values are integers; [size_t]
    menu results are naturals. *)
Definition pid_t := Z.

(** <errno.h>, <signal.h>, <sys/wait.h> on Linux. *)
Definition ENOENT : Z := 2.
Definition SIGKILL : Z := 9.
Definition WNOHANG : Z := 1.
Definition EXIT_SUCCESS : Z := 0.
Definition EXIT_FAILURE : Z := 1.

Definition SDCARD_INSTALL_TIMEOUT : nat := 10.
Definition UFS_DEV_SDCARD_BLK_PATH : string := "/dev/block/mmcblk0p1".

(** The installer's outcomes ([install/install.h], not part of this file):
    the four values the code names, success, and any other value the
    installer may return. *)
Inductive InstallResult :=
| INSTALL_SUCCESS | INSTALL_ERROR | INSTALL_NONE | INSTALL_UNVERIFIED | INSTALL_DOWNGRADE
| INSTALL_OTHER (code : Z).

Definition is_unverified (r : InstallResult) : bool :=
  match r with INSTALL_UNVERIFIED => true | _ => false end.
Definition is_downgrade (r : InstallResult) : bool :=
  match r with INSTALL_DOWNGRADE => true | _ => false end.

(** The arguments of one [install_package] call, in call order; the names of
    the last three are the ones the call sites give in comments. *)
Record InstallArgs := {
  package : string;
  flag2 : bool;
  flag3 : bool;
  retry_count : Z;
  verify : bool;
  allow_ab_downgrade : bool
}.

(** [Volume] (fstab entry) and [VolumeInfo] (volume manager), with the fields
    the code reads. *)
Record Volume := {
  mount_point : string;
  fs_type : string;
  flags : Z;
  fs_options : string
}.

Record VolumeInfo := { mId : string; mPath : string }.

(** Constants of [Device] and [RecoveryUI] the menu result is compared with,
    already converted to [size_t].  Their values live in headers outside this
    file; the development is parametric in them. *)
Record MenuConsts := {
  INTERRUPTED : N;
  kGoHome : N;
  kGoBack : N
}.

(** The two magic paths of fuse_sideload.h. *)
Record FusePaths := {
  FUSE_SIDELOAD_HOST_PATHNAME : string;
  FUSE_SIDELOAD_HOST_EXIT_PATHNAME : string
}.

(** What the outside answers.  Calls made once per polling iteration are
    indexed by the iteration; [install_package] by the number of earlier
    invocations. *)
Record World := {
  consts : MenuConsts;
  paths : FusePaths;
  bootdevice : string;                              (* property_get("ro.boot.bootdevice", buf, "N/A") *)
  volume_for_mount_point : string -> option Volume;
  mount_rc : Z;                                     (* mount(2) *)
  volumeMount_ok : string -> bool;
  opendir : string -> option (list dirent);         (* opendir + the readdir sequence *)
  fork_ret : pid_t;
  provider_valid : bool;                            (* FuseFileDataProvider::Valid *)
  run_fuse_sideload_rc : Z;
  waitpid_nohang : nat -> Z;                        (* waitpid(child, &status, WNOHANG) *)
  stat_host : nat -> Z * Z;                         (* stat(HOST_PATHNAME): return value, errno *)
  install_package : nat -> InstallArgs -> InstallResult;
  ask_to_continue_unverified : bool;
  ask_to_continue_downgrade : bool
}.

(** ** Effects *)

Inductive Event :=
| EvMount (source target fstype : string) (mountflags : Z) (data : string)
| EvVolumeMount (id : string)
| EvVolumeUnmount (id : string)
| EvShowMenu (headers items : list string) (initial_selection : N)
| EvPrint (text : string)
| EvUpdateBootloaderMessage
| EvFork
| EvWaitpid (pid : pid_t) (options : Z)
| EvStat (path : string)
| EvSleep (seconds : nat)
| EvKill (pid : pid_t) (sig : Z)
| EvInstall (args : InstallArgs)
| EvAskUnverified
| EvAskDowngrade.

(** The mutable part: what has been called so far, and the answers the menu
    will still give ([ShowMenu] blocks when there is none left). *)
Record State := { trace : list Event; keys : list N }.

(** Ways a computation ends without returning to its caller.  [Undefined]
    is the read of [entries[chosen_item]] behind the end of the vector: the
    code has no check there and goes on with what it read, but its behaviour
    is undefined from that read on, and the model follows the run no
    further. *)
Inductive Halt :=
| Exited (code : Z)      (* _exit, in the forked child *)
| Undefined              (* entries[chosen_item] out of bounds *)
| Blocked                (* waiting for a key that never comes *)
| OutOfFuel.

Inductive Outcome (A : Type) :=
| Ret (a : A)
| Stop (h : Halt).
Arguments Ret {A} a.
Arguments Stop {A} h.

Definition M (A : Type) : Type := State -> Outcome A * State.

Definition ret {A} (a : A) : M A := fun st => (Ret a, st).

Definition bind {A B} (m : M A) (k : A -> M B) : M B :=
  fun st =>
    match m st with
    | (Ret a, st') => k a st'
    | (Stop h, st') => (Stop h, st')
    end.

Definition halt {A} (h : Halt) : M A := fun st => (Stop h, st).

Definition emit (e : Event) : M unit :=
  fun st => (Ret tt, {| trace := trace st ++ [e]; keys := keys st |}).

Declare Scope monad_scope.
Delimit Scope monad_scope with monad.
Notation "x <- m ;; k" := (bind m (fun x => k))
  (at level 61, m at next level, right associativity) : monad_scope.
Notation "m ;;; k" := (bind m (fun _ => k))
  (at level 61, right associativity) : monad_scope.
Local Open Scope monad_scope.

(** [RecoveryUI::ShowMenu]: shows the menu and returns the next answer. *)
Definition ShowMenu (headers items : list string) (initial_selection : N) : M N :=
  fun st =>
    let st' := {| trace := trace st ++ [EvShowMenu headers items initial_selection];
                  keys := tl (keys st) |} in
    match keys st with
    | [] => (Stop Blocked, st')
    | k :: _ => (Ret k, st')
    end.

(** ** BrowseDirectory *)

Section Browse.
Variable w : World.

(** The [while (true)] loop, lines 94-123; [browse] is the function called
    on a subdirectory.  One unit of fuel per menu shown. *)
Fixpoint menu_loop (browse : string -> M string) (fuel : nat)
         (path : string) (headers entries : list string) (chosen_item : N)
  : M string :=
  match fuel with
  | O => halt OutOfFuel
  | S fuel' =>
      chosen_item <- ShowMenu headers entries chosen_item ;;
      if (chosen_item =? INTERRUPTED (consts w))%N then ret ""
      else if (chosen_item =? kGoHome (consts w))%N then ret "@"
      else if (chosen_item =? kGoBack (consts w))%N || (chosen_item =? 0)%N then ret ""
      else
        match nth_error entries (N.to_nat chosen_item) with
        | None => halt Undefined
        | Some item =>
            let new_path := (path ++ "/" ++ item)%string in
            match Str.back new_path with
            | Some "/"%char =>
                result <- browse (Str.pop_back new_path) ;;
                if negb (Str.empty result) then ret result
                else menu_loop browse fuel' path headers entries chosen_item
            | _ => ret new_path
            end
        end
  end.

Fixpoint BrowseDirectory (fuel : nat) (path : string) : M string :=
  match fuel with
  | O => halt OutOfFuel
  | S fuel' =>
      match opendir w path with
      | None => ret ""
      | Some des =>
          let entries := menu_entries des in
          let headers := ["Choose a package to install:"; path] in
          menu_loop (BrowseDirectory fuel') fuel' path headers entries 0%N
      end
  end.

(** Fuel that always suffices: every loop iteration and every nested call
    but the first follows a menu answer. *)
Definition browse_fuel (st : State) : nat := S (S (List.length (keys st))).

Definition Browse (path : string) : M string :=
  fun st => BrowseDirectory (browse_fuel st) path st.

End Browse.

(** ** The fuse host, the mount, and ApplyFromStorage *)

Section Apply.
Variable w : World.

(** [StartSdcardFuse] runs in the forked child. *)
Definition StartSdcardFuse (path : string) : bool :=
  if negb (provider_valid w) then false
  else (run_fuse_sideload_rc w =? 0)%Z.

Definition is_ufs_dev : Z :=
  let len := String.length (Str.c_str (bootdevice w)) in
  if (len <? String.length ".ufshc" + 1)%nat then 0%Z
  else if Str.strncmp_eq (Str.from (len - String.length ".ufshc") (bootdevice w))
                         ".ufshc" (Str.sizeof_lit ".ufshc")
       then 1%Z else 0%Z.

Definition do_sdcard_mount_for_ufs : M Z :=
  match volume_for_mount_point w "/sdcard" with
  | None => ret (-1)%Z
  | Some v =>
      if negb (Str.strncmp_eq (fs_type v) "vfat" (Str.sizeof_lit "vfat")) then ret (-1)%Z
      else
        emit (EvMount UFS_DEV_SDCARD_BLK_PATH (mount_point v) (fs_type v)
                      (flags v) (fs_options v)) ;;;
        if negb (mount_rc w =? 0)%Z then ret (-1)%Z else ret 0%Z
  end.

Definition host_args (f3 v d : bool) : InstallArgs :=
  {| package := FUSE_SIDELOAD_HOST_PATHNAME (paths w);
     flag2 := false; flag3 := f3; retry_count := 0;
     verify := v; allow_ab_downgrade := d |}.

(** One [install_package] call, the [n]-th of this run. *)
Definition call_install (n : nat) (a : InstallArgs) : M InstallResult :=
  emit (EvInstall a) ;;; ret (install_package w n a).

Definition ask_unverified : M bool :=
  emit EvAskUnverified ;;; ret (ask_to_continue_unverified w).

Definition ask_downgrade : M bool :=
  emit EvAskDowngrade ;;; ret (ask_to_continue_downgrade w).

(** Lines 237-246: the install and its two conditional re-runs.  The pair
    threads the number of installer calls made so far. *)
Definition install_step : M InstallResult :=
  result <- call_install 0 (host_args true true false) ;;
  rn <- (if is_unverified result then
           go <- ask_unverified ;;
           if go then
             r <- call_install 1 (host_args false false false) ;; ret (r, 2%nat)
           else ret (result, 1%nat)
         else ret (result, 1%nat)) ;;
  if is_downgrade (fst rn) then
    go <- ask_downgrade ;;
    if go then call_install (snd rn) (host_args false false true)
    else ret (fst rn)
  else ret (fst rn).

(** The [for] loop, lines 217-249, entered at iteration [i] with
    [n = SDCARD_INSTALL_TIMEOUT - i] iterations to go; returns [result] and
    [waited]. *)
Fixpoint poll_from (child : pid_t) (n i : nat) : M (InstallResult * bool) :=
  match n with
  | O => ret (INSTALL_ERROR, false)
  | S n' =>
      emit (EvWaitpid child WNOHANG) ;;;
      if (waitpid_nohang w i =? -1)%Z then ret (INSTALL_ERROR, true)
      else
        emit (EvStat (FUSE_SIDELOAD_HOST_PATHNAME (paths w))) ;;;
        if (fst (stat_host w i) =? -1)%Z then
          if (snd (stat_host w i) =? ENOENT)%Z && (i <? SDCARD_INSTALL_TIMEOUT - 1)%nat then
            emit (EvSleep 1) ;;; poll_from child n' (S i)
          else
            emit (EvKill child SIGKILL) ;;; ret (INSTALL_ERROR, false)
        else
          result <- install_step ;; ret (result, false)
  end.

Definition nl : string := String "010"%char EmptyString.

(** Lines 178-187: the mount step; [false] is the early
    [return INSTALL_ERROR]. *)
Definition mount_storage (vi : VolumeInfo) : M bool :=
  if negb (is_ufs_dev =? 0)%Z then
    rc <- do_sdcard_mount_for_ufs ;; ret (rc =? 0)%Z
  else
    emit (EvVolumeMount (mId vi)) ;;; ret (volumeMount_ok w (mId vi)).

(** Lines 199-265: what happens once a package path has been chosen. *)
Definition install_selected (vi : VolumeInfo) (path : string) : M InstallResult :=
  emit (EvPrint (nl ++ "-- Install " ++ path ++ " ..." ++ nl)%string) ;;;
  emit EvUpdateBootloaderMessage ;;;
  emit EvFork ;;;
  let child := fork_ret w in
  if (child =? 0)%Z then
    halt (Exited (if StartSdcardFuse path then EXIT_SUCCESS else EXIT_FAILURE))
  else
    rw <- poll_from child SDCARD_INSTALL_TIMEOUT 0 ;;
    (if negb (snd rw) then
       emit (EvStat (FUSE_SIDELOAD_HOST_EXIT_PATHNAME (paths w))) ;;;
       emit (EvWaitpid child 0)
     else ret tt) ;;;
    emit (EvVolumeUnmount (mId vi)) ;;;
    ret (fst rw).

Definition ApplyFromStorage (vi : VolumeInfo) : M InstallResult :=
  mounted <- mount_storage vi ;;
  if negb mounted then ret INSTALL_ERROR
  else
    path <- Browse w (mPath vi) ;;
    if (path =? "@")%string then ret INSTALL_NONE
    else if Str.empty path then
      emit (EvVolumeUnmount (mId vi)) ;;; ret INSTALL_NONE
    else install_selected vi path.

End Apply.

(** * Vocabulary of the statements

    Definitions the properties are stated with: none of them is part of the
    program. *)

(** ** Traces *)

(** [log st evs] is [st] after the calls [evs]. *)
Definition log (st : State) (evs : list Event) : State :=
  {| trace := trace st ++ evs; keys := keys st |}.

Definition count (p : Event -> bool) (tr : list Event) : nat :=
  List.length (filter p tr).

Definition is_unmount (e : Event) : bool :=
  match e with EvVolumeUnmount _ => true | _ => false end.
Definition is_kill (e : Event) : bool :=
  match e with EvKill _ _ => true | _ => false end.
Definition is_fork (e : Event) : bool :=
  match e with EvFork => true | _ => false end.
Definition is_menu (e : Event) : bool :=
  match e with EvShowMenu _ _ _ => true | _ => false end.
Definition is_blocking_wait (e : Event) : bool :=
  match e with EvWaitpid _ opts => (opts =? 0)%Z | _ => false end.

Definition is_sleep (e : Event) : bool :=
  match e with EvSleep _ => true | _ => false end.
Definition is_nohang_wait (e : Event) : bool :=
  match e with EvWaitpid _ opts => (opts =? WNOHANG)%Z | _ => false end.

(** The two calls of the mount step. *)
Definition is_mount_attempt (e : Event) : bool :=
  match e with EvMount _ _ _ _ _ | EvVolumeMount _ => true | _ => false end.

(** The calls of the install step: the installer and the two questions. *)
Definition is_step_event (e : Event) : bool :=
  match e with EvInstall _ | EvAskUnverified | EvAskDowngrade => true | _ => false end.
Definition is_ask_unverified (e : Event) : bool :=
  match e with EvAskUnverified => true | _ => false end.

Definition is_stat_of (p : string) (e : Event) : bool :=
  match e with EvStat q => (p =? q)%string | _ => false end.

(** The installer calls recorded in a trace, in order. *)
Fixpoint installs_of (tr : list Event) : list InstallArgs :=
  match tr with
  | [] => []
  | EvInstall a :: rest => a :: installs_of rest
  | _ :: rest => installs_of rest
  end.

(** ** The polling loop and the install step *)

Section PollingWords.
Variable w : World.
Variable child : pid_t.

Let host := FUSE_SIDELOAD_HOST_PATHNAME (paths w).

(** One unsuccessful second: non-blocking wait, stat, sleep. *)
Definition round : list Event :=
  [EvWaitpid child WNOHANG; EvStat host; EvSleep 1].

Fixpoint rounds (j : nat) : list Event :=
  match j with
  | O => []
  | S j' => round ++ rounds j'
  end.

(** Iteration [i] neither sees the wait fail nor finds the path, and is
    not the last one: the loop sleeps and goes on. *)
Definition quiet (i : nat) : bool :=
  negb (waitpid_nohang w i =? -1)%Z
  && (fst (stat_host w i) =? -1)%Z
  && (snd (stat_host w i) =? ENOENT)%Z
  && (i <? SDCARD_INSTALL_TIMEOUT - 1)%nat.

Definition quiet_until (k : nat) : bool := forallb quiet (seq 0 k).

(** The path is there at iteration [k]: the loop runs the install step. *)
Definition ready_at (k : nat) : bool :=
  (k <? SDCARD_INSTALL_TIMEOUT)%nat
  && quiet_until k
  && negb (waitpid_nohang w k =? -1)%Z
  && negb (fst (stat_host w k) =? -1)%Z.

(** In each of the ten iterations the wait does not fail and the ready path
    does not exist. *)
Definition never_ready : bool :=
  forallb (fun i => negb (waitpid_nohang w i =? -1)%Z
                    && (fst (stat_host w i) =? -1)%Z
                    && (snd (stat_host w i) =? ENOENT)%Z)
          (seq 0 SDCARD_INSTALL_TIMEOUT).

(** What [waitpid(child, &status, WNOHANG)] returns: 0 while the child
    runs, the pid of the child when it has terminated, -1 when there is no
    such child.  At iteration [i] it reports that the forked child has
    terminated. *)
Definition wait_reports_exit (i : nat) : Prop :=
  (0 < fork_ret w)%Z /\ waitpid_nohang w i = fork_ret w.

(** From iteration [i] on, the wait never fails and [stat] never succeeds. *)
Definition hopeless_from (i n : nat) : Prop :=
  forall x, i <= x < i + n ->
            waitpid_nohang w x <> (-1)%Z /\ fst (stat_host w x) = (-1)%Z.

(** The three argument lists the code passes. *)
Definition args_first : InstallArgs := host_args w true true false.

Definition args_unverified : InstallArgs := host_args w false false false.

Definition args_downgrade : InstallArgs := host_args w false false true.

(** What the step calls when the re-run's outcome is final. *)
Definition rerun_events : list Event :=
  [EvInstall args_first; EvAskUnverified; EvInstall args_unverified]
  ++ (if is_downgrade (install_package w 1 args_unverified)
      then [EvAskDowngrade] else []).

(** The installer calls of a run that reached the installer, with the result
    [r] of the run: the first call; then a call without verification, if the
    outcome was INSTALL_UNVERIFIED and the user agreed; then a call that
    allows a downgrade, if the outcome so far was INSTALL_DOWNGRADE and the
    user agreed. *)
Definition calls_ok (r : InstallResult) (calls : list InstallArgs) : Prop :=
  let r0 := install_package w 0 args_first in
  let r1 := install_package w 1 args_unverified in
  (calls = [args_first] /\ r = r0)
  \/ (calls = [args_first; args_unverified]
      /\ r0 = INSTALL_UNVERIFIED /\ ask_to_continue_unverified w = true /\ r = r1)
  \/ (calls = [args_first; args_downgrade]
      /\ r0 = INSTALL_DOWNGRADE /\ ask_to_continue_downgrade w = true
      /\ r = install_package w 1 args_downgrade)
  \/ (calls = [args_first; args_unverified; args_downgrade]
      /\ r0 = INSTALL_UNVERIFIED /\ ask_to_continue_unverified w = true
      /\ r1 = INSTALL_DOWNGRADE /\ ask_to_continue_downgrade w = true
      /\ r = install_package w 2 args_downgrade).

(** How the loop ends: the calls of its last iteration, with [result] and
    [waited]. *)
Definition poll_end (rw : InstallResult * bool) (tail : list Event) : Prop :=
  (tail = [EvWaitpid child WNOHANG] /\ rw = (INSTALL_ERROR, true))
  \/ (tail = [EvWaitpid child WNOHANG; EvStat host; EvKill child SIGKILL]
      /\ rw = (INSTALL_ERROR, false))
  \/ (exists evs,
        tail = [EvWaitpid child WNOHANG; EvStat host] ++ evs
        /\ snd rw = false
        /\ forallb is_step_event evs = true
        /\ calls_ok (fst rw) (installs_of evs)).

End PollingWords.

(** ** ApplyFromStorage *)

Section ApplyWords.
Variable w : World.
Variable vi : VolumeInfo.

Let child := fork_ret w.
Let exit_path := FUSE_SIDELOAD_HOST_EXIT_PATHNAME (paths w).

(** From [st], the volume gets mounted and browsing returns the package
    [path], leaving the state [st2]. *)
Definition selects (st : State) (path : string) (st2 : State) : Prop :=
  exists st1,
    mount_storage w vi st = (Ret true, st1)
    /\ Browse w (mPath vi) st1 = (Ret path, st2)
    /\ path <> "@" /\ path <> "".

(** The calls between the selection and the polling loop. *)
Definition announce (path : string) : list Event :=
  [EvPrint (nl ++ "-- Install " ++ path ++ " ..." ++ nl)%string;
   EvUpdateBootloaderMessage; EvFork].

(** The calls after the loop, lines 251-264. *)
Definition teardown (waited : bool) : list Event :=
  (if waited then [] else [EvStat exit_path; EvWaitpid child 0])
  ++ [EvVolumeUnmount (mId vi)].

(** The mount step succeeds: the volume manager mounts the volume, or, on a
    UFS device, /sdcard is a "vfat" volume of the fstab and [mount] returns
    0. *)
Definition mountable : bool :=
  if (is_ufs_dev w =? 0)%Z then volumeMount_ok w (mId vi)
  else
    match volume_for_mount_point w "/sdcard" with
    | None => false
    | Some v => (Str.c_str (fs_type v) =? "vfat")%string && (mount_rc w =? 0)%Z
    end.

End ApplyWords.

(** ** The menu and the browsing *)

Definition is_package (de : dirent) : bool :=
  match d_type de with
  | DT_REG => Str.EndsWithIgnoreCase (d_name de) ".zip"
  | _ => false
  end.

Definition is_subdir (de : dirent) : bool :=
  match d_type de with
  | DT_DIR => negb ((d_name de =? ".") || (d_name de =? ".."))%string
  | _ => false
  end.

(** The names that reach the two vectors, in [readdir] order. *)
Definition packages (des : list dirent) : list string :=
  List.map d_name (filter is_package des).

Definition subdirs (des : list dirent) : list string :=
  List.map (fun de => (d_name de ++ "/")%string) (filter is_subdir des).

Definition string_le (a b : string) : Prop := String.leb a b = true.

Section BrowseWords.
Variable w : World.

(** [st] after the menu has been shown and its answer taken. *)
Definition shown (st : State) (headers entries : list string) (c : N) : State :=
  {| trace := trace st ++ [EvShowMenu headers entries c]; keys := tl (keys st) |}.

(** What one answer [k] does in the loop; [again] is the next iteration. *)
Definition on_answer (browse : string -> M string) (again : N -> M string)
           (path : string) (entries : list string) (k : N) : M string :=
  if (k =? INTERRUPTED (consts w))%N then ret ""
  else if (k =? kGoHome (consts w))%N then ret "@"
  else if (k =? kGoBack (consts w))%N || (k =? 0)%N then ret ""
  else
    match nth_error entries (N.to_nat k) with
    | None => halt Undefined
    | Some item =>
        match Str.back (path ++ "/" ++ item) with
        | Some "/"%char =>
            bind (browse (Str.pop_back (path ++ "/" ++ item)))
                 (fun result => if negb (Str.empty result) then ret result else again k)
        | _ => ret (path ++ "/" ++ item)%string
        end
    end.

(** What a run that started in [st] with [path] may have done when it
    ends in [st'] with outcome [o]: it showed menus and nothing else, it
    took its answers from the front of the queue, and a value it returns
    is empty, or ["@"] after the go-home answer, or a path below [path]
    with the package suffix. *)
Definition browse_post (path : string) (st : State) (o : Outcome string) (st' : State)
  : Prop :=
  exists evs used,
    trace st' = trace st ++ evs
    /\ Forall (fun e => is_menu e = true) evs
    /\ keys st = used ++ keys st'
    /\ match o with
       | Ret r =>
           r = ""
           \/ (r = "@" /\ In (kGoHome (consts w)) used)
           \/ (exists rel, r = (path ++ "/" ++ rel)%string
                           /\ Str.EndsWithIgnoreCase r ".zip" = true)
       | Stop _ => True
       end.

(** The first header of every menu. *)
Definition title : string := "Choose a package to install:".

(** An answer on which the loop returns "": the interrupt, or, if it is not
    the go-home constant, go-back or the first entry. *)
Definition leaves_level (k : N) : bool :=
  (k =? INTERRUPTED (consts w))%N
  || (negb (k =? kGoHome (consts w))%N
      && ((k =? kGoBack (consts w))%N || (k =? 0)%N)).


(** An answer the loop does not look up in the menu. *)
Definition is_sentinel (c : N) : bool :=
  (c =? INTERRUPTED (consts w))%N || (c =? kGoHome (consts w))%N
  || (c =? kGoBack (consts w))%N || (c =? 0)%N.


(** The directory reached from [path] when each answer of [ds] picks a
    subdirectory that can be opened: BrowseDirectory is then [length ds]
    calls below the one on [path], at depth [S (length ds)]. *)
Fixpoint descend (path : string) (ds : list N) : option string :=
  match opendir w path with
  | None => None
  | Some des =>
      match ds with
      | [] => Some path
      | c :: ds' =>
          if is_sentinel c then None
          else
            match nth_error (menu_entries des) (N.to_nat c) with
            | None => None
            | Some item =>
                match Str.back (path ++ "/" ++ item) with
                | Some "/"%char => descend (Str.pop_back (path ++ "/" ++ item)) ds'
                | _ => None
                end
            end
      end
  end.

End BrowseWords.

(** ** Sample worlds

    Concrete answers of the outside, on which the statements below are
    exercised.  The menu constants and the fuse paths are sample values. *)

Module Scenario.

Definition menu_consts : MenuConsts :=
  {| INTERRUPTED := 18446744073709551614;
     kGoHome := 18446744073709550615;
     kGoBack := 18446744073709550616 |}.

Definition fuse_paths : FusePaths :=
  {| FUSE_SIDELOAD_HOST_PATHNAME := "/sideload/package.zip";
     FUSE_SIDELOAD_HOST_EXIT_PATHNAME := "/sideload/exit" |}.

Definition file (name : string) : dirent := {| d_name := name; d_type := DT_REG |}.
Definition dir (name : string) : dirent := {| d_name := name; d_type := DT_DIR |}.

(** /sdcard holds a.zip and the empty directory Sub. *)
Definition sdcard (path : string) : option (list dirent) :=
  if (path =? "/sdcard")%string then Some [dir "."; dir ".."; dir "Sub"; file "a.zip"]
  else if (path =? "/sdcard/Sub")%string then Some [dir "."; dir ".."]
  else None.

Definition world (tree : string -> option (list dirent))
           (bootdev fstype : string) (mounts : bool) (fork : pid_t)
           (wait : nat -> Z) (stat : nat -> Z * Z)
           (inst : nat -> InstallResult) (askU askD : bool) : World :=
  {| consts := menu_consts;
     paths := fuse_paths;
     bootdevice := bootdev;
     volume_for_mount_point := fun _ =>
       Some {| mount_point := "/sdcard"; fs_type := fstype; flags := 0; fs_options := "" |};
     mount_rc := 0;
     volumeMount_ok := fun _ => mounts;
     opendir := tree;
     fork_ret := fork;
     provider_valid := true;
     run_fuse_sideload_rc := 0;
     waitpid_nohang := wait;
     stat_host := stat;
     install_package := fun n _ => inst n;
     ask_to_continue_unverified := askU;
     ask_to_continue_downgrade := askD |}.

Definition vi : VolumeInfo := {| mId := "sd1"; mPath := "/sdcard" |}.

Definition start (ks : list N) : State := {| trace := []; keys := ks |}.

(** Answers of [waitpid(child, &status, WNOHANG)] and [stat]. *)
Definition running : nat -> Z := fun _ => 0%Z.
Definition absent : nat -> Z * Z := fun _ => ((-1)%Z, ENOENT).
Definition present_from (k : nat) : nat -> Z * Z :=
  fun i => if (i <? k)%nat then ((-1)%Z, ENOENT) else (0%Z, 0%Z).

(** On an eMMC device, with answer 1 (a.zip) at the first menu. *)
Definition emmc := world sdcard "7824900.sdhci" "vfat" true.

Definition root_menu : Event :=
  EvShowMenu ["Choose a package to install:"; "/sdcard"] ["../"; "a.zip"; "Sub/"] 0.

Definition chosen : State :=
  {| trace := [EvVolumeMount "sd1"; root_menu]; keys := [] |}.

End Scenario.

(** The wait fails in the fourth second. *)
Definition fails_at_3 : nat -> Z := fun i => if (i =? 3)%nat then (-1)%Z else 0%Z.

(** The child exits at once: the first wait returns its pid, and the
    later ones fail, the child being gone. *)
Definition exit_seen_at_0 : nat -> Z := fun i => if (i =? 0)%nat then 77%Z else (-1)%Z.

(** The child exits during the last second: the wait of the last iteration
    returns its pid. *)
Definition exit_seen_at_9 : nat -> Z := fun i => if (i =? 9)%nat then 77%Z else 0%Z.

(** [stat] fails with EACCES in the third second. *)
Definition denied_at_2 : nat -> Z * Z :=
  fun i => if (i =? 2)%nat then ((-1)%Z, 13%Z) else ((-1)%Z, ENOENT).

(** The package is unverified; run without verification it installs. *)
Definition unverified_world : World :=
  Scenario.emmc 77%Z Scenario.running (Scenario.present_from 0)
                (fun n => match n with O => INSTALL_UNVERIFIED | _ => INSTALL_SUCCESS end)
                true true.

(** The package is unverified and, run without verification, turns out to
    be a downgrade; both confirmations are given. *)
Definition unverified_downgrade_world : World :=
  Scenario.emmc 77%Z Scenario.running (Scenario.present_from 0)
                (fun n => match n with
                          | 0 => INSTALL_UNVERIFIED
                          | 1 => INSTALL_DOWNGRADE
                          | _ => INSTALL_SUCCESS
                          end)
                true true.

Definition browse_world : World :=
  Scenario.emmc 77%Z Scenario.running Scenario.absent (fun _ => INSTALL_SUCCESS) true true.

(** The package is a downgrade; allowed, it installs.  The ready path
    appears in the third second. *)
Definition downgrade_world : World :=
  Scenario.emmc 77%Z Scenario.running (Scenario.present_from 2)
                (fun n => match n with O => INSTALL_DOWNGRADE | _ => INSTALL_SUCCESS end)
                true true.

(** /sdcard holds a.zip and Sub; Sub holds b.zip, the empty directory Deep
    and the directory Gone, which cannot be opened. *)
Definition sub_directory : list dirent :=
  [Scenario.dir "."; Scenario.dir ".."; Scenario.dir "Gone"; Scenario.dir "Deep";
   Scenario.file "b.zip"].

Definition nested (path : string) : option (list dirent) :=
  if (path =? "/sdcard")%string
  then Some [Scenario.dir "."; Scenario.dir ".."; Scenario.dir "Sub"; Scenario.file "a.zip"]
  else if (path =? "/sdcard/Sub")%string then Some sub_directory
  else if (path =? "/sdcard/Sub/Deep")%string then Some [Scenario.dir "."; Scenario.dir ".."]
  else None.

Definition nested_world : World :=
  Scenario.world nested "7824900.sdhci" "vfat" true 77%Z Scenario.running Scenario.absent
                 (fun _ => INSTALL_SUCCESS) true true.

(** The volume cannot be mounted. *)
Definition unmountable_world : World :=
  Scenario.world Scenario.sdcard "7824900.sdhci" "vfat" false 77%Z Scenario.running
                 Scenario.absent (fun _ => INSTALL_SUCCESS) true true.

(** The volume is mounted but its root cannot be opened. *)
Definition unreadable_world : World :=
  Scenario.world (fun _ => None) "7824900.sdhci" "vfat" true 77%Z Scenario.running
                 Scenario.absent (fun _ => INSTALL_SUCCESS) true true.

(** [fork] has returned 0: the run is the one of the child. *)
Definition child_world : World :=
  Scenario.emmc 0%Z Scenario.running Scenario.absent (fun _ => INSTALL_SUCCESS) true true.

(** A directory with a package whose name starts with a character below the
    dot. *)
Definition dash_directory : list dirent :=
  [Scenario.dir "."; Scenario.dir ".."; Scenario.dir "Sub";
   Scenario.file "b.zip"; Scenario.file "-a.zip"].

Definition dash_world : World :=
  Scenario.world (fun path => if (path =? "/sdcard")%string then Some dash_directory else None)
                 "7824900.sdhci" "vfat" true 77%Z Scenario.running Scenario.absent
                 (fun _ => INSTALL_SUCCESS) true true.

(** /sdcard holds a package whose name sorts before the go-up entry, and
    the parent of /sdcard can be opened. *)
Definition escape (path : string) : option (list dirent) :=
  if (path =? "/sdcard")%string then Some dash_directory
  else if (path =? "/sdcard/..")%string
  then Some [Scenario.dir "."; Scenario.dir ".."; Scenario.dir "sdcard"; Scenario.dir "data"]
  else None.

Definition escape_world : World :=
  Scenario.world escape "7824900.sdhci" "vfat" true 77%Z Scenario.running Scenario.absent
                 (fun _ => INSTALL_SUCCESS) true true.

(** * Properties *)

(** ** Traces *)

Lemma log_nil st : log st [] = st.
Proof. destruct st; unfold log; cbn; now rewrite app_nil_r. Qed.

Lemma log_log st a b : log (log st a) b = log st (a ++ b).
Proof. unfold log; cbn; now rewrite app_assoc. Qed.

Lemma emit_log e st : emit e st = (Ret tt, log st [e]).
Proof. reflexivity. Qed.

Lemma count_app p a b : count p (a ++ b) = count p a + count p b.
Proof. unfold count; now rewrite filter_app, length_app. Qed.

(** ** The polling loop *)

Section Polling.
Variable w : World.
Variable child : pid_t.

Let host := FUSE_SIDELOAD_HOST_PATHNAME (paths w).

Lemma quiet_until_spec k i : quiet_until w k = true -> i < k -> quiet w i = true.
Proof.
  unfold quiet_until; rewrite forallb_forall; intros H Hi.
  apply H, in_seq; lia.
Qed.

Lemma poll_quiet_step n i st :
  quiet w i = true ->
  poll_from w child (S n) i st = poll_from w child n (S i) (log st (round w child)).
Proof.
  unfold quiet; intros Hq.
  repeat (apply andb_prop in Hq; destruct Hq as [Hq ?]).
  apply negb_true_iff in Hq.
  cbn [poll_from]; unfold bind at 1; rewrite emit_log, Hq.
  unfold bind at 1; rewrite emit_log.
  match goal with H : (fst _ =? _)%Z = true |- _ => rewrite H end.
  match goal with H : (snd _ =? _)%Z = true |- _ => rewrite H end.
  match goal with H : (_ <? _)%nat = true |- _ => rewrite H end.
  cbn [andb]; unfold bind at 1; rewrite emit_log, !log_log. reflexivity.
Qed.

Lemma poll_quiet j : forall n i st,
  (forall x, i <= x < i + j -> quiet w x = true) ->
  poll_from w child (j + n) i st = poll_from w child n (i + j) (log st (rounds w child j)).
Proof.
  induction j as [|j IH]; intros n i st Hq.
  - cbn [rounds]; now rewrite log_nil, Nat.add_0_r.
  - cbn [Nat.add rounds]; rewrite poll_quiet_step by (apply Hq; lia).
    rewrite IH by (intros; apply Hq; lia).
    rewrite log_log; f_equal; lia.
Qed.

(** The loop reaches iteration [k] after [k] quiet seconds. *)
Lemma poll_reaches k st :
  k < SDCARD_INSTALL_TIMEOUT ->
  quiet_until w k = true ->
  poll_from w child SDCARD_INSTALL_TIMEOUT 0 st
  = poll_from w child (SDCARD_INSTALL_TIMEOUT - k) k (log st (rounds w child k)).
Proof.
  intros Hk Hq.
  replace SDCARD_INSTALL_TIMEOUT with (k + (SDCARD_INSTALL_TIMEOUT - k)) at 1 by lia.
  rewrite poll_quiet; [reflexivity|].
  intros x Hx; apply (quiet_until_spec k); [assumption | lia].
Qed.

(** The three ways an iteration ends the loop. *)
Lemma poll_wait_fails n i st :
  waitpid_nohang w i = (-1)%Z ->
  poll_from w child (S n) i st
  = (Ret (INSTALL_ERROR, true), log st [EvWaitpid child WNOHANG]).
Proof.
  intros H; cbn [poll_from]; unfold bind; rewrite emit_log, H; reflexivity.
Qed.

Lemma poll_gives_up n i st :
  waitpid_nohang w i <> (-1)%Z ->
  fst (stat_host w i) = (-1)%Z ->
  (snd (stat_host w i) =? ENOENT)%Z && (i <? SDCARD_INSTALL_TIMEOUT - 1)%nat = false ->
  poll_from w child (S n) i st
  = (Ret (INSTALL_ERROR, false),
     log st [EvWaitpid child WNOHANG; EvStat host; EvKill child SIGKILL]).
Proof.
  intros Hw Hs He; apply Z.eqb_neq in Hw.
  cbn [poll_from]; unfold bind at 1; rewrite emit_log, Hw.
  unfold bind at 1; rewrite emit_log, Hs, He; cbn [Z.eqb Pos.eqb].
  unfold bind; rewrite emit_log, !log_log; reflexivity.
Qed.

Lemma poll_installs n i st :
  waitpid_nohang w i <> (-1)%Z ->
  fst (stat_host w i) <> (-1)%Z ->
  poll_from w child (S n) i st
  = bind (install_step w) (fun result => ret (result, false))
         (log st [EvWaitpid child WNOHANG; EvStat host]).
Proof.
  intros Hw Hs; apply Z.eqb_neq in Hw; apply Z.eqb_neq in Hs.
  cbn [poll_from]; unfold bind at 1; rewrite emit_log, Hw.
  unfold bind at 1; rewrite emit_log, Hs, !log_log; reflexivity.
Qed.

End Polling.

(** ** The install step *)

Section InstallStep.
Variable w : World.

Lemma installs_of_app a b : installs_of (a ++ b) = installs_of a ++ installs_of b.
Proof.
  induction a as [|e a IH]; [reflexivity|].
  destruct e; cbn [app installs_of]; rewrite IH; reflexivity.
Qed.

Ltac run_step :=
  unfold install_step, call_install, ask_unverified, ask_downgrade, bind, ret;
  rewrite ?emit_log.

Lemma install_step_final st :
  is_unverified (install_package w 0 (args_first w)) = false ->
  is_downgrade (install_package w 0 (args_first w)) = false ->
  install_step w st
  = (Ret (install_package w 0 (args_first w)), log st [EvInstall (args_first w)]).
Proof.
  intros Hu Hd; run_step; fold (args_first w); rewrite Hu; cbn [fst snd].
  rewrite Hd; reflexivity.
Qed.

Lemma install_step_declined st :
  install_package w 0 (args_first w) = INSTALL_UNVERIFIED ->
  ask_to_continue_unverified w = false ->
  install_step w st
  = (Ret INSTALL_UNVERIFIED, log st [EvInstall (args_first w); EvAskUnverified]).
Proof.
  intros H0 Hask; run_step; fold (args_first w); rewrite H0; cbn [is_unverified].
  rewrite emit_log, Hask; cbn [fst snd is_downgrade]; rewrite log_log; reflexivity.
Qed.

Lemma install_step_rerun st :
  install_package w 0 (args_first w) = INSTALL_UNVERIFIED ->
  ask_to_continue_unverified w = true ->
  is_downgrade (install_package w 1 (args_unverified w))
  && ask_to_continue_downgrade w = false ->
  install_step w st
  = (Ret (install_package w 1 (args_unverified w)), log st (rerun_events w)).
Proof.
  intros H0 Hask Hd; run_step; fold (args_first w) (args_unverified w); unfold rerun_events.
  rewrite H0; cbn [is_unverified]; rewrite emit_log, Hask, emit_log; cbn [fst snd].
  destruct (is_downgrade (install_package w 1 (args_unverified w))) eqn:Hdg.
  - cbn [andb] in Hd; rewrite emit_log, Hd, !log_log; reflexivity.
  - rewrite !log_log; reflexivity.
Qed.

Lemma installs_rerun_events : installs_of (rerun_events w) = [args_first w; args_unverified w].
Proof.
  unfold rerun_events.
  destruct (is_downgrade (install_package w 1 (args_unverified w))); reflexivity.
Qed.

Lemma install_step_third st :
  install_package w 0 (args_first w) = INSTALL_UNVERIFIED ->
  ask_to_continue_unverified w = true ->
  install_package w 1 (args_unverified w) = INSTALL_DOWNGRADE ->
  ask_to_continue_downgrade w = true ->
  install_step w st
  = (Ret (install_package w 2 (args_downgrade w)),
     log st [EvInstall (args_first w); EvAskUnverified; EvInstall (args_unverified w);
             EvAskDowngrade; EvInstall (args_downgrade w)]).
Proof.
  intros H0 Hask H1 Hd; run_step; fold (args_first w) (args_unverified w) (args_downgrade w).
  rewrite H0; cbn [is_unverified]; rewrite emit_log, Hask, emit_log; cbn [fst snd].
  rewrite H1; cbn [is_downgrade]; rewrite emit_log, Hd, emit_log, !log_log.
  reflexivity.
Qed.

(** The step always returns, and calls neither unmount, kill nor wait. *)
Lemma install_step_total st :
  exists r evs,
    install_step w st = (Ret r, log st evs)
    /\ count is_unmount evs = 0 /\ count is_kill evs = 0
    /\ count is_blocking_wait evs = 0 /\ 1 <= List.length (installs_of evs).
Proof.
  run_step; fold (args_first w) (args_unverified w) (args_downgrade w).
  destruct (is_unverified (install_package w 0 (args_first w)));
    [rewrite emit_log; destruct (ask_to_continue_unverified w); rewrite ?emit_log|];
    cbn [fst snd];
    match goal with
    | |- context [if is_downgrade ?r then _ else _] =>
        destruct (is_downgrade r);
        [rewrite emit_log; destruct (ask_to_continue_downgrade w); rewrite ?emit_log|]
    end;
    rewrite ?log_log; cbn [app];
    do 2 eexists; (split; [reflexivity|]); cbn; repeat split; lia.
Qed.

End InstallStep.

(** ** Strings *)

Section StringFacts.

Lemma append_assoc (a b c : string) : ((a ++ b) ++ c = a ++ (b ++ c))%string.
Proof. induction a as [|x a IH]; cbn; [reflexivity | now rewrite IH]. Qed.

Lemma append_length (a b : string) :
  String.length (a ++ b) = String.length a + String.length b.
Proof. induction a as [|x a IH]; cbn; [reflexivity | now rewrite IH]. Qed.


Lemma back_append (a b : string) :
  b <> EmptyString -> Str.back (a ++ b) = Str.back b.
Proof.
  intros Hb; induction a as [|x a IH]; [reflexivity|].
  cbn [append Str.back]; rewrite IH.
  destruct (a ++ b)%string eqn:E; [|reflexivity].
  destruct a; cbn in E; [congruence | discriminate].
Qed.

(** A string that ends in [c] is its [pop_back] followed by [c]. *)
Lemma pop_back_back (s : string) (c : ascii) :
  Str.back s = Some c -> s = (Str.pop_back s ++ String c EmptyString)%string.
Proof.
  induction s as [|x s IH]; [discriminate|].
  destruct s as [|y s].
  - cbn; intros [= ->]; reflexivity.
  - intros H; change (Str.back (String y s) = Some c) in H.
    change (String x (String y s) = String x (Str.pop_back (String y s) ++ String c ""))%string.
    now rewrite <- IH.
Qed.

Lemma substring_skip (a b : string) (n : nat) :
  substring (String.length a + n) (String.length b - n) (a ++ b)
  = substring n (String.length b - n) b.
Proof. induction a as [|x a IH]; cbn; [reflexivity | assumption]. Qed.

Lemma tail_append (a b : string) (n : nat) :
  n <= String.length b -> Str.tail n (a ++ b) = Str.tail n b.
Proof.
  intros Hn; unfold Str.tail; rewrite append_length.
  replace (String.length a + String.length b - n)
    with (String.length a + (String.length b - n)) by lia.
  replace n with (String.length b - (String.length b - n)) at 2 4 by lia.
  apply substring_skip.
Qed.

Lemma EndsWithIgnoreCase_append (a b suffix : string) :
  Str.EndsWithIgnoreCase b suffix = true ->
  Str.EndsWithIgnoreCase (a ++ b) suffix = true.
Proof.
  unfold Str.EndsWithIgnoreCase; intros H.
  apply andb_prop in H; destruct H as [Hlen Heq].
  apply Nat.leb_le in Hlen.
  rewrite tail_append, Heq by assumption.
  rewrite append_length, andb_true_r; apply Nat.leb_le; lia.
Qed.

Lemma substring_all (s : string) : substring 0 (String.length s) s = s.
Proof. induction s as [|x s IH]; cbn; [reflexivity | now rewrite IH]. Qed.

Lemma back_cons (x : ascii) (s : string) :
  s <> EmptyString -> Str.back (String x s) = Str.back s.
Proof. destruct s; [congruence | reflexivity]. Qed.

Lemma back_substring (s : string) : forall k n,
  1 <= n -> k + n = String.length s ->
  Str.back (substring k n s) = Str.back s.
Proof.
  induction s as [|x s IH]; intros k n Hn Hk; cbn in Hk; [lia|].
  destruct k as [|k].
  - cbn in Hk; subst n; change (S (String.length s)) with (String.length (String x s)).
    now rewrite substring_all.
  - cbn [substring]; rewrite IH by lia.
    symmetry; apply back_cons; destruct s; [cbn in Hk; lia | discriminate].
Qed.

Lemma back_None (s : string) : Str.back s = None -> s = EmptyString.
Proof.
  induction s as [|x s IH]; [reflexivity|].
  destruct s as [|y s]; [discriminate|].
  intros H; change (Str.back (String y s) = None) in H.
  apply IH in H; discriminate.
Qed.

Lemma back_map (f : ascii -> ascii) (s : string) :
  Str.back (Str.map f s) = option_map f (Str.back s).
Proof.
  induction s as [|x s IH]; [reflexivity|].
  destruct s as [|y s]; [reflexivity|].
  change (Str.back (Str.map f (String y s)) = option_map f (Str.back (String y s))).
  exact IH.
Qed.

(** A name with the package suffix has at least four characters and does
    not end in a slash. *)
Lemma zip_name_back (name : string) :
  Str.EndsWithIgnoreCase name ".zip" = true ->
  Str.back name <> Some "/"%char /\ 4 <= String.length name.
Proof.
  unfold Str.EndsWithIgnoreCase; intros H.
  apply andb_prop in H; destruct H as [Hlen Heq].
  apply Nat.leb_le in Hlen; cbn [String.length] in Hlen; split; [|assumption].
  intros Hb; apply String.eqb_eq in Heq.
  apply (f_equal Str.back) in Heq.
  rewrite back_map in Heq; unfold Str.tail in Heq.
  rewrite back_substring, Hb in Heq by (cbn [String.length]; lia).
  discriminate Heq.
Qed.

End StringFacts.

(** ** The menu BrowseDirectory builds *)

Lemma read_entries_spec des : forall dirs entries,
  read_entries des dirs entries = (dirs ++ subdirs des, entries ++ packages des).
Proof.
  unfold packages, subdirs, is_package, is_subdir.
  induction des as [|de des IH]; intros dirs entries; cbn [read_entries filter List.map].
  - now rewrite !app_nil_r.
  - destruct (d_type de); rewrite ?IH; try reflexivity.
    + destruct ((d_name de =? ".") || (d_name de =? ".."))%string; cbn [negb];
        [reflexivity|].
      cbn [List.map]; now rewrite <- app_assoc.
    + destruct (Str.EndsWithIgnoreCase (d_name de) ".zip"); [|reflexivity].
      cbn [List.map]; now rewrite <- app_assoc.
Qed.

(** The menu is the sorted vector of ["../"] and the package names, then the
    sorted subdirectories: ["../"] is sorted with the package names. *)
Lemma menu_entries_spec des :
  menu_entries des = std_sort ("../" :: packages des) ++ std_sort (subdirs des).
Proof. unfold menu_entries; now rewrite read_entries_spec. Qed.

Lemma std_sort_In x v : In x (std_sort v) <-> In x v.
Proof.
  unfold std_sort; split; intros H.
  - eapply Permutation_in; [symmetry; apply StringSort.Permuted_sort | exact H].
  - eapply Permutation_in; [apply StringSort.Permuted_sort | exact H].
Qed.

(** Every item of the menu is ["../"], a package name, or a name followed
    by a slash. *)
Lemma menu_entries_item des item :
  In item (menu_entries des) ->
  Str.back item = Some "/"%char \/ Str.EndsWithIgnoreCase item ".zip" = true.
Proof.
  rewrite menu_entries_spec, in_app_iff, !std_sort_In.
  unfold packages, subdirs; cbn [In]; rewrite !in_map_iff.
  intros [[<- | (de & <- & Hde)] | (de & <- & Hde)].
  - left; reflexivity.
  - right; apply filter_In in Hde; destruct Hde as [_ Hp].
    unfold is_package in Hp; destruct (d_type de); try discriminate; exact Hp.
  - left; rewrite back_append by discriminate; reflexivity.
Qed.

(** ** The order of the menu *)

Lemma ascii_compare_refl (x : ascii) : Ascii.compare x x = Eq.
Proof. unfold Ascii.compare; apply N.compare_refl. Qed.

Lemma string_le_trans (a b c : string) :
  string_le a b -> string_le b c -> string_le a c.
Proof.
  unfold string_le, String.leb; revert b c.
  induction a as [|x a IH]; intros [|y b] [|z c]; cbn [String.compare];
    try reflexivity; try discriminate.
  destruct (Ascii.compare x y) eqn:Exy; try discriminate;
    destruct (Ascii.compare y z) eqn:Eyz; try discriminate.
  - apply Ascii.compare_eq_iff in Exy, Eyz; subst y z.
    rewrite ascii_compare_refl; apply IH.
  - apply Ascii.compare_eq_iff in Exy; subst y; now rewrite Eyz.
  - apply Ascii.compare_eq_iff in Eyz; subst z; now rewrite Exy.
  - unfold Ascii.compare in *; rewrite N.compare_lt_iff in Exy, Eyz.
    assert (H : (N_of_ascii x ?= N_of_ascii z)%N = Lt)
      by (apply N.compare_lt_iff; lia).
    now rewrite H.
Qed.

Lemma string_le_antisym (a b : string) : string_le a b -> string_le b a -> a = b.
Proof. unfold string_le; intros H1 H2; now apply String.leb_antisym. Qed.

(** A sorted vector is determined by its elements. *)
Lemma sorted_unique : forall l1 l2 : list string,
  StronglySorted string_le l1 -> StronglySorted string_le l2 ->
  Permutation l1 l2 -> l1 = l2.
Proof.
  induction l1 as [|x l1 IH]; intros l2 S1 S2 P.
  - apply Permutation_nil in P; now subst.
  - destruct l2 as [|y l2]; [apply Permutation_sym, Permutation_nil in P; discriminate|].
    apply StronglySorted_inv in S1, S2.
    destruct S1 as [S1 F1], S2 as [S2 F2].
    rewrite Forall_forall in F1, F2.
    assert (x = y) as <-.
    { assert (Hx : In x (y :: l2)) by (eapply Permutation_in; [exact P | now left]).
      assert (Hy : In y (x :: l1))
        by (eapply Permutation_in; [symmetry; exact P | now left]).
      destruct Hx as [->|Hx]; [reflexivity|].
      destruct Hy as [->|Hy]; [reflexivity|].
      apply string_le_antisym; auto. }
    f_equal; apply IH; try assumption.
    now apply Permutation_cons_inv in P.
Qed.

Lemma std_sort_sorted v : StronglySorted string_le (std_sort v).
Proof.
  apply StringSort.StronglySorted_sort.
  intros a b c; apply string_le_trans.
Qed.

Lemma std_sort_perm v : Permutation (std_sort v) v.
Proof. symmetry; apply StringSort.Permuted_sort. Qed.

(** Sorting leaves a first element that is below all others in place. *)
Lemma std_sort_least x v :
  Forall (string_le x) v -> std_sort (x :: v) = x :: std_sort v.
Proof.
  intros Hx; apply sorted_unique.
  - apply std_sort_sorted.
  - constructor; [apply std_sort_sorted|].
    rewrite Forall_forall in *; intros y Hy; apply Hx, std_sort_In, Hy.
  - rewrite std_sort_perm; constructor; symmetry; apply std_sort_perm.
Qed.

(** The menu in general: two sorted blocks, the first made of ["../"] and
    the package names, the second of the subdirectories. *)
Lemma menu_entries_blocks des :
  exists first second,
    menu_entries des = first ++ second
    /\ StronglySorted string_le first /\ Permutation first ("../" :: packages des)
    /\ StronglySorted string_le second /\ Permutation second (subdirs des).
Proof.
  exists (std_sort ("../" :: packages des)), (std_sort (subdirs des)).
  rewrite menu_entries_spec; repeat split;
    first [apply std_sort_sorted | apply std_sort_perm].
Qed.

(** When no package name sorts before ["../"], the menu is as the comment on
    line 70 says: ["../"], the packages in order, the subdirectories in
    order. *)
Lemma menu_entries_go_up_first des :
  Forall (string_le "../") (packages des) ->
  menu_entries des = "../" :: std_sort (packages des) ++ std_sort (subdirs des).
Proof. intros H; now rewrite menu_entries_spec, std_sort_least. Qed.

(** A package name that sorts strictly before ["../"] takes its place. *)
Lemma menu_entries_go_up_displaced des name :
  In name (packages des) -> String.ltb name "../" = true ->
  hd_error (menu_entries des) <> Some "../".
Proof.
  intros Hin Hlt Hhd.
  rewrite menu_entries_spec in Hhd.
  pose proof (std_sort_sorted ("../" :: packages des)) as Hs.
  assert (Hname : In name (std_sort ("../" :: packages des)))
    by (apply std_sort_In; now right).
  destruct (std_sort ("../" :: packages des)) as [|x rest]; [contradiction|].
  cbn in Hhd; injection Hhd as ->.
  apply StronglySorted_inv in Hs; destruct Hs as [_ Hall].
  rewrite Forall_forall in Hall.
  destruct Hname as [<-|Hname].
  - vm_compute in Hlt; discriminate.
  - apply Hall in Hname; unfold string_le, String.leb in Hname.
    unfold String.ltb in Hlt; rewrite String.compare_antisym in Hname.
    destruct (String.compare name "../"); cbn in *; discriminate.
Qed.

(** ** Runs of BrowseDirectory *)

Section BrowseRuns.
Variable w : World.

Lemma menu_loop_step browse fuel path headers entries c st :
  menu_loop w browse (S fuel) path headers entries c st
  = match keys st with
    | [] => (Stop Blocked, shown st headers entries c)
    | k :: _ =>
        on_answer w browse (menu_loop w browse fuel path headers entries)
                  path entries k (shown st headers entries c)
    end.
Proof.
  cbn [menu_loop]; unfold bind at 1, ShowMenu, shown.
  destruct (keys st); reflexivity.
Qed.

Lemma BrowseDirectory_step fuel path st :
  BrowseDirectory w (S fuel) path st
  = match opendir w path with
    | None => (Ret "", st)
    | Some des =>
        menu_loop w (BrowseDirectory w fuel) fuel path
                  ["Choose a package to install:"; path] (menu_entries des) 0%N st
    end.
Proof. cbn [BrowseDirectory]; destruct (opendir w path); reflexivity. Qed.

Lemma browse_post_refl path st h : browse_post w path st (Stop h) st.
Proof.
  exists [], []; cbn; rewrite app_nil_r; repeat split; constructor.
Qed.

Lemma browse_post_empty path st : browse_post w path st (Ret "") st.
Proof.
  exists [], []; cbn; rewrite app_nil_r; repeat split; [constructor | now left].
Qed.

Lemma menu_loop_post browse des :
  (forall p st o st', browse p st = (o, st') -> browse_post w p st o st') ->
  forall fuel path headers c st o st',
    menu_loop w browse fuel path headers (menu_entries des) c st = (o, st') ->
    browse_post w path st o st'.
Proof.
  intros Hb; induction fuel as [|fuel IH]; intros path headers c st o st' Hrun.
  - cbn in Hrun; injection Hrun as <- <-; apply browse_post_refl.
  - rewrite menu_loop_step in Hrun.
    destruct (keys st) as [|k ks] eqn:Hk.
    { injection Hrun as <- <-.
      exists [EvShowMenu headers (menu_entries des) c], [].
      cbn; rewrite Hk; repeat split; repeat constructor. }
    assert (Hshown : forall o,
               (match o with
                | Ret r => r = "" \/ (r = "@" /\ In (kGoHome (consts w)) [k])
                           \/ (exists rel, r = (path ++ "/" ++ rel)%string
                                           /\ Str.EndsWithIgnoreCase r ".zip" = true)
                | Stop _ => True
                end) ->
               browse_post w path st o (shown st headers (menu_entries des) c)).
    { intros o0 Ho; exists [EvShowMenu headers (menu_entries des) c], [k].
      cbn; rewrite Hk; repeat split; [repeat constructor | exact Ho]. }
    unfold on_answer, ret, halt in Hrun.
    destruct (k =? INTERRUPTED (consts w))%N.
    { injection Hrun as <- <-; apply Hshown; now left. }
    destruct (k =? kGoHome (consts w))%N eqn:Hhome.
    { injection Hrun as <- <-; apply Hshown; right; left.
      apply N.eqb_eq in Hhome; subst k; split; [reflexivity | now left]. }
    destruct ((k =? kGoBack (consts w))%N || (k =? 0)%N).
    { injection Hrun as <- <-; apply Hshown; now left. }
    destruct (nth_error (menu_entries des) (N.to_nat k)) as [item|] eqn:Hitem.
    2:{ injection Hrun as <- <-; apply Hshown; exact I. }
    apply nth_error_In, menu_entries_item in Hitem.
    assert (Hne : ("/" ++ item)%string <> EmptyString) by discriminate.
    destruct (Str.back (path ++ "/" ++ item)) as [last|] eqn:Hback.
    2:{ rewrite back_append in Hback by assumption.
        apply back_None in Hback; discriminate. }
    assert (Hfile : last <> "/"%char -> (o, st') = (Ret (path ++ "/" ++ item)%string,
                                                   shown st headers (menu_entries des) c) ->
                    browse_post w path st o st').
    { intros Hl [= -> ->]; apply Hshown; right; right.
      exists item; split; [reflexivity|].
      destruct Hitem as [H|H].
      - rewrite back_append in Hback by discriminate.
        change ("/" ++ item)%string with (String "/"%char item) in Hback.
        rewrite back_cons in Hback by (intros ->; discriminate H).
        congruence.
      - apply EndsWithIgnoreCase_append, (EndsWithIgnoreCase_append "/" item), H. }
    destruct (ascii_dec last "/"%char) as [->|Hl].
    2:{ apply Hfile; [assumption|].
        destruct last as [[] [] [] [] [] [] [] []]; try (symmetry; exact Hrun).
        congruence. }
    clear Hfile; unfold bind in Hrun.
    destruct (browse (Str.pop_back (path ++ "/" ++ item))
                     (shown st headers (menu_entries des) c)) as [o1 st1] eqn:Hsub.
    apply Hb in Hsub; destruct Hsub as (evs1 & used1 & Ht1 & Hm1 & Hk1 & Ho1).
    cbn [shown trace keys] in Ht1, Hk1; rewrite Hk in Hk1; cbn [tl] in Hk1.
    destruct o1 as [result|h].
    2:{ injection Hrun as <- <-.
        exists (EvShowMenu headers (menu_entries des) c :: evs1), (k :: used1).
        rewrite Ht1, <- app_assoc, Hk, Hk1; cbn; repeat split.
        constructor; [reflexivity | assumption]. }
    destruct (Str.empty result) eqn:Hres; cbn [negb] in Hrun.
    + apply IH in Hrun; destruct Hrun as (evs2 & used2 & Ht2 & Hm2 & Hk2 & Ho2).
      exists (EvShowMenu headers (menu_entries des) c :: evs1 ++ evs2), (k :: used1 ++ used2).
      split; [rewrite Ht2, Ht1, <- !app_assoc; reflexivity|].
      split; [constructor; [reflexivity | apply Forall_app; now split]|].
      split; [rewrite Hk, Hk1, Hk2; cbn [app]; rewrite <- app_assoc; reflexivity|].
      destruct o as [r|]; [|exact I].
      destruct Ho2 as [H | [[H Hin] | H]]; auto.
      right; left; split; [assumption|].
      right; apply in_or_app; now right.
    + injection Hrun as <- <-.
      exists (EvShowMenu headers (menu_entries des) c :: evs1), (k :: used1).
      split; [rewrite Ht1, <- !app_assoc; reflexivity|].
      split; [constructor; [reflexivity | assumption]|].
      split; [rewrite Hk, Hk1; reflexivity|].
      destruct Ho1 as [H | [[H Hin] | (rel & H & Hzip)]].
      * subst result; discriminate.
      * right; left; split; [assumption | now right].
      * right; right; exists (item ++ rel)%string; split; [|assumption].
        rewrite H; apply pop_back_back in Hback.
        set (q := Str.pop_back (path ++ "/" ++ item)) in *.
        replace (path ++ "/" ++ item ++ rel)%string
          with ((path ++ "/" ++ item) ++ rel)%string
          by (rewrite append_assoc; reflexivity).
        rewrite Hback, append_assoc; reflexivity.
Qed.

Lemma BrowseDirectory_post : forall fuel path st o st',
  BrowseDirectory w fuel path st = (o, st') -> browse_post w path st o st'.
Proof.
  induction fuel as [|fuel IH]; intros path st o st' Hrun.
  - cbn in Hrun; injection Hrun as <- <-; apply browse_post_refl.
  - cbn [BrowseDirectory] in Hrun.
    destruct (opendir w path) as [des|].
    + eapply menu_loop_post; [exact IH | exact Hrun].
    + injection Hrun as <- <-; apply browse_post_empty.
Qed.

End BrowseRuns.

(** ** Fuel *)

Section Fuel.
Variable w : World.

Lemma browse_post_keys path st o st' :
  browse_post w path st o st' -> List.length (keys st') <= List.length (keys st).
Proof.
  intros (evs & used & _ & _ & Hk & _); rewrite Hk, length_app; lia.
Qed.

Lemma menu_loop_fuel fb des :
  (forall p st, List.length (keys st) + 2 <= fb ->
                fst (BrowseDirectory w fb p st) <> Stop OutOfFuel) ->
  forall fuel path headers c st,
    List.length (keys st) + 1 <= fuel ->
    List.length (keys st) + 1 <= fb ->
    fst (menu_loop w (BrowseDirectory w fb) fuel path headers (menu_entries des) c st)
    <> Stop OutOfFuel.
Proof.
  intros Hb; induction fuel as [|fuel IH]; intros path headers c st Hf Hfb; [lia|].
  rewrite menu_loop_step.
  destruct (keys st) as [|k ks] eqn:Hk; [discriminate|].
  cbn [List.length] in Hf, Hfb.
  unfold on_answer, ret, halt.
  destruct (k =? INTERRUPTED (consts w))%N; [discriminate|].
  destruct (k =? kGoHome (consts w))%N; [discriminate|].
  destruct ((k =? kGoBack (consts w))%N || (k =? 0)%N); [discriminate|].
  destruct (nth_error (menu_entries des) (N.to_nat k)) as [item|]; [|discriminate].
  destruct (Str.back (path ++ "/" ++ item)) as [last|]; [|discriminate].
  destruct (ascii_dec last "/"%char) as [->|Hl].
  2:{ destruct last as [[] [] [] [] [] [] [] []]; try discriminate; congruence. }
  unfold bind.
  set (st0 := shown st headers (menu_entries des) c).
  assert (Hk0 : keys st0 = ks) by (unfold st0, shown; cbn; now rewrite Hk).
  pose proof (Hb (Str.pop_back (path ++ "/" ++ item)) st0) as Hsub.
  destruct (BrowseDirectory w fb (Str.pop_back (path ++ "/" ++ item)) st0)
    as [o1 st1] eqn:Hrun.
  apply BrowseDirectory_post, browse_post_keys in Hrun; rewrite Hk0 in Hrun.
  destruct o1 as [result|h].
  - destruct (Str.empty result); cbn [negb]; [|discriminate].
    apply IH; lia.
  - cbn [fst] in *; apply Hsub; rewrite Hk0; lia.
Qed.

Lemma BrowseDirectory_fuel : forall fuel path st,
  List.length (keys st) + 2 <= fuel ->
  fst (BrowseDirectory w fuel path st) <> Stop OutOfFuel.
Proof.
  induction fuel as [|fuel IH]; intros path st Hf; [lia|].
  cbn [BrowseDirectory].
  destruct (opendir w path) as [des|]; [|discriminate].
  apply menu_loop_fuel; [exact IH | lia | lia].
Qed.

(** [Browse] never stops for lack of fuel: it returns, waits for a key
    for ever, or indexes the menu out of bounds. *)
Lemma Browse_fuel path st : fst (Browse w path st) <> Stop OutOfFuel.
Proof. apply BrowseDirectory_fuel; unfold browse_fuel; lia. Qed.

End Fuel.

(** ** Runs of ApplyFromStorage *)

Section ApplyRuns.
Variable w : World.
Variable vi : VolumeInfo.

Let child := fork_ret w.
Let host := FUSE_SIDELOAD_HOST_PATHNAME (paths w).
Let exit_path := FUSE_SIDELOAD_HOST_EXIT_PATHNAME (paths w).

Lemma empty_false (s : string) : s <> "" -> Str.empty s = false.
Proof. destruct s; [congruence | reflexivity]. Qed.

Lemma apply_selected st path st2 :
  selects w vi st path st2 ->
  ApplyFromStorage w vi st = install_selected w vi path st2.
Proof.
  intros (st1 & Hm & Hb & Hhome & Hne).
  unfold ApplyFromStorage, bind; rewrite Hm; cbn [negb]; rewrite Hb.
  apply String.eqb_neq in Hhome; rewrite Hhome, (empty_false _ Hne); reflexivity.
Qed.

Lemma install_selected_parent path st rw st' :
  fork_ret w <> 0%Z ->
  poll_from w child SDCARD_INSTALL_TIMEOUT 0 (log st (announce path)) = (Ret rw, st') ->
  install_selected w vi path st = (Ret (fst rw), log st' (teardown w vi (snd rw))).
Proof.
  intros Hf Hp; apply Z.eqb_neq in Hf.
  unfold install_selected, bind; rewrite !emit_log, !log_log, Hf.
  cbn [app]; fold child; unfold announce in Hp; rewrite Hp.
  unfold teardown; destruct (snd rw); cbn [negb]; unfold ret.
  - rewrite emit_log; reflexivity.
  - rewrite !emit_log, !log_log; reflexivity.
Qed.

(** The loop ends at iteration [k] because the non-blocking wait fails. *)
Lemma apply_wait_fails st path st2 k :
  selects w vi st path st2 ->
  fork_ret w <> 0%Z ->
  k < SDCARD_INSTALL_TIMEOUT ->
  quiet_until w k = true ->
  waitpid_nohang w k = (-1)%Z ->
  ApplyFromStorage w vi st
  = (Ret INSTALL_ERROR,
     log st2 (announce path ++ rounds w child k
              ++ [EvWaitpid child WNOHANG; EvVolumeUnmount (mId vi)])).
Proof.
  intros Hsel Hf Hk Hq Hw.
  rewrite (apply_selected _ _ _ Hsel).
  erewrite install_selected_parent; [|assumption|].
  2:{ rewrite (poll_reaches w child k) by assumption.
      destruct (SDCARD_INSTALL_TIMEOUT - k) as [|n] eqn:E; [lia|].
      apply poll_wait_fails; assumption. }
  cbn [fst snd teardown]; unfold teardown; rewrite !log_log, <- ?app_assoc; reflexivity.
Qed.

(** The loop ends at iteration [k] because [stat] fails and either it is
    the last iteration or [errno] is not [ENOENT]. *)
Lemma apply_gives_up st path st2 k :
  selects w vi st path st2 ->
  fork_ret w <> 0%Z ->
  k < SDCARD_INSTALL_TIMEOUT ->
  quiet_until w k = true ->
  waitpid_nohang w k <> (-1)%Z ->
  fst (stat_host w k) = (-1)%Z ->
  (snd (stat_host w k) =? ENOENT)%Z && (k <? SDCARD_INSTALL_TIMEOUT - 1)%nat = false ->
  ApplyFromStorage w vi st
  = (Ret INSTALL_ERROR,
     log st2 (announce path ++ rounds w child k
              ++ [EvWaitpid child WNOHANG; EvStat host; EvKill child SIGKILL;
                  EvStat exit_path; EvWaitpid child 0; EvVolumeUnmount (mId vi)])).
Proof.
  intros Hsel Hf Hk Hq Hw Hs He.
  rewrite (apply_selected _ _ _ Hsel).
  erewrite install_selected_parent; [|assumption|].
  2:{ rewrite (poll_reaches w child k) by assumption.
      destruct (SDCARD_INSTALL_TIMEOUT - k) as [|n] eqn:E; [lia|].
      apply poll_gives_up; assumption. }
  cbn [fst snd]; unfold teardown; rewrite !log_log, <- ?app_assoc; reflexivity.
Qed.

Lemma apply_ready st path st2 k r evs :
  selects w vi st path st2 ->
  fork_ret w <> 0%Z ->
  ready_at w k = true ->
  (forall s, install_step w s = (Ret r, log s evs)) ->
  ApplyFromStorage w vi st
  = (Ret r,
     log st2 (announce path ++ rounds w child k
              ++ [EvWaitpid child WNOHANG; EvStat host] ++ evs
              ++ [EvStat exit_path; EvWaitpid child 0; EvVolumeUnmount (mId vi)])).
Proof.
  intros Hsel Hf Hr Hstep; unfold ready_at in Hr.
  repeat (apply andb_prop in Hr; destruct Hr as [Hr ?]).
  apply Nat.ltb_lt in Hr.
  repeat match goal with H : negb _ = true |- _ =>
           apply negb_true_iff, Z.eqb_neq in H end.
  rewrite (apply_selected _ _ _ Hsel).
  erewrite install_selected_parent; [|assumption|].
  2:{ rewrite (poll_reaches w child k) by assumption.
      destruct (SDCARD_INSTALL_TIMEOUT - k) as [|n] eqn:E; [lia|].
      rewrite poll_installs by assumption.
      unfold bind; rewrite Hstep; reflexivity. }
  cbn [fst snd]; unfold teardown; rewrite !log_log, <- ?app_assoc; reflexivity.
Qed.

Lemma count_rounds_kill j : count is_kill (rounds w child j) = 0.
Proof. induction j as [|j IH]; [reflexivity | exact IH]. Qed.

Lemma count_rounds_blocking j : count is_blocking_wait (rounds w child j) = 0.
Proof. induction j as [|j IH]; [reflexivity | exact IH]. Qed.

Lemma installs_rounds j : installs_of (rounds w child j) = [].
Proof. induction j as [|j IH]; [reflexivity | exact IH]. Qed.

End ApplyRuns.

(** ** C strings and [strncmp] *)

Lemma c_str_cons s x t :
  Str.c_str s = String x t -> exists s', s = String x s' /\ t = Str.c_str s'.
Proof.
  destruct s as [|y s]; cbn; [discriminate|].
  destruct (y =? zero)%char; [discriminate|].
  intros [= -> <-]; eauto.
Qed.

Lemma c_str_idem s : Str.c_str (Str.c_str s) = Str.c_str s.
Proof.
  induction s as [|x s IH]; [reflexivity|]; cbn.
  destruct (x =? zero)%char eqn:E; [reflexivity|].
  cbn; now rewrite E, IH.
Qed.

(** When [strncmp] reads past the end of [b] and finds no difference, the
    two C strings are equal. *)
Lemma strncmp_eq_c_str : forall n a b,
  String.length (Str.c_str b) < n ->
  Str.strncmp_eq a b n = true ->
  Str.c_str a = Str.c_str b.
Proof.
  induction n as [|n IH]; intros a b Hlen Heq; [lia|].
  cbn [Str.strncmp_eq] in Heq.
  revert Hlen.
  destruct (Str.c_str a) as [|x a'] eqn:Ea, (Str.c_str b) as [|y b'] eqn:Eb;
    intros Hlen; try discriminate; [reflexivity|].
  cbn [String.length] in Hlen.
  apply andb_prop in Heq; destruct Heq as [Hxy Hrest].
  apply Ascii.eqb_eq in Hxy; subst y.
  apply c_str_cons in Ea, Eb.
  destruct Ea as (a0 & -> & ->), Eb as (b0 & -> & ->).
  apply IH in Hrest; [| rewrite c_str_idem; lia].
  rewrite !c_str_idem in Hrest; now rewrite Hrest.
Qed.

(** [strncmp] reads its first argument as a C string. *)
Lemma strncmp_eq_c_str_l n a b :
  Str.strncmp_eq a b n = Str.strncmp_eq (Str.c_str a) b n.
Proof. destruct n; [reflexivity|]; cbn [Str.strncmp_eq]; now rewrite c_str_idem. Qed.

(** ** The mount step *)

Section MountRuns.
Variable w : World.
Variable vi : VolumeInfo.

(** On a UFS device a volume whose type is not "vfat" stops
    [do_sdcard_mount_for_ufs] before [mount]. *)
Lemma do_sdcard_mount_unsupported v st :
  volume_for_mount_point w "/sdcard" = Some v ->
  Str.c_str (fs_type v) <> "vfat" ->
  do_sdcard_mount_for_ufs w st = (Ret (-1)%Z, st).
Proof.
  intros Hv Hfs; unfold do_sdcard_mount_for_ufs; rewrite Hv.
  destruct (Str.strncmp_eq (fs_type v) "vfat" (Str.sizeof_lit "vfat")) eqn:E;
    [|reflexivity].
  apply strncmp_eq_c_str in E; [contradiction | apply Nat.ltb_lt; reflexivity].
Qed.

(** On a UFS device a "vfat" volume is mounted from the fixed block
    device. *)
Lemma do_sdcard_mount_vfat v st :
  volume_for_mount_point w "/sdcard" = Some v ->
  Str.c_str (fs_type v) = "vfat" ->
  do_sdcard_mount_for_ufs w st
  = (Ret (if (mount_rc w =? 0)%Z then 0%Z else (-1)%Z),
     log st [EvMount UFS_DEV_SDCARD_BLK_PATH (mount_point v) (fs_type v)
                     (flags v) (fs_options v)]).
Proof.
  intros Hv Hfs; unfold do_sdcard_mount_for_ufs; rewrite Hv.
  rewrite strncmp_eq_c_str_l, Hfs.
  change (Str.strncmp_eq "vfat" "vfat" (Str.sizeof_lit "vfat")) with true; cbn [negb].
  unfold bind, ret; rewrite emit_log.
  destruct (mount_rc w =? 0)%Z; reflexivity.
Qed.

(** The mount step always returns, and calls neither unmount nor fork. *)
Lemma mount_storage_total st :
  exists b evs,
    mount_storage w vi st = (Ret b, log st evs)
    /\ count is_unmount evs = 0 /\ count is_fork evs = 0.
Proof.
  unfold mount_storage, do_sdcard_mount_for_ufs, bind, ret.
  destruct (negb (is_ufs_dev w =? 0)%Z).
  - destruct (volume_for_mount_point w "/sdcard") as [v|].
    + destruct (negb (Str.strncmp_eq (fs_type v) "vfat" (Str.sizeof_lit "vfat"))).
      * exists false, []; rewrite log_nil; repeat split.
      * rewrite emit_log.
        destruct (negb (mount_rc w =? 0)%Z); do 2 eexists; repeat split.
    + exists false, []; rewrite log_nil; repeat split.
  - rewrite emit_log; do 2 eexists; repeat split.
Qed.

End MountRuns.

(** The polling loop always returns; it never unmounts. *)
Lemma poll_total w child : forall n i st,
  exists rw evs,
    poll_from w child n i st = (Ret rw, log st evs) /\ count is_unmount evs = 0.
Proof.
  induction n as [|n IH]; intros i st.
  - exists (INSTALL_ERROR, false), []; rewrite log_nil; split; reflexivity.
  - cbn [poll_from]; unfold bind at 1; rewrite emit_log.
    destruct (waitpid_nohang w i =? -1)%Z.
    { do 2 eexists; split; reflexivity. }
    unfold bind at 1; rewrite emit_log, log_log.
    destruct (fst (stat_host w i) =? -1)%Z.
    + destruct ((snd (stat_host w i) =? ENOENT)%Z && (i <? SDCARD_INSTALL_TIMEOUT - 1)%nat).
      * unfold bind at 1; rewrite emit_log, log_log.
        destruct (IH (S i) (log st ([EvWaitpid child WNOHANG]
                                      ++ [EvStat (FUSE_SIDELOAD_HOST_PATHNAME (paths w))]
                                      ++ [EvSleep 1])))
          as (rw & evs & Hrun & Hc).
        rewrite <- app_assoc, Hrun, log_log.
        do 2 eexists; split; [reflexivity|].
        rewrite count_app, Hc; reflexivity.
      * unfold bind, ret; rewrite emit_log, log_log.
        do 2 eexists; split; reflexivity.
    + unfold bind.
      destruct (install_step_total w (log st ([EvWaitpid child WNOHANG]
                   ++ [EvStat (FUSE_SIDELOAD_HOST_PATHNAME (paths w))])))
        as (r & evs & Hrun & Hc & _).
      rewrite Hrun, log_log; unfold ret.
      do 2 eexists; split; [reflexivity|].
      rewrite count_app, Hc; reflexivity.
Qed.

(** The selection of /sdcard/a.zip in the sample worlds, by evaluation. *)
Ltac pick_a_zip :=
  exists {| trace := [EvVolumeMount "sd1"]; keys := [1%N] |};
  repeat split; try reflexivity; discriminate.

(** * The claims *)

(** ** C1: the non-blocking wait *)

(** C1, the code at the failing input.  The child (pid 77) exits before the
    ready path appears and the non-blocking wait of the last iteration
    reports it by returning 77.  The loop, which tests that wait against -1
    only, does not take this for an exit: it goes on to [stat], sends SIGKILL
    to the child it has just reaped, and the teardown waits for it again. *)
Lemma exit_seen_by_wait_is_not_detected :
  let w := Scenario.emmc 77%Z exit_seen_at_9 Scenario.absent
                         (fun _ => INSTALL_SUCCESS) true true in
  let run := ApplyFromStorage w Scenario.vi (Scenario.start [1%N]) in
  wait_reports_exit w 9
  /\ forallb (fun i => (fst (stat_host w i) =? -1)%Z) (seq 0 SDCARD_INSTALL_TIMEOUT) = true
  /\ fst run = Ret INSTALL_ERROR
  /\ filter is_kill (trace (snd run)) = [EvKill 77%Z SIGKILL]
  /\ filter is_blocking_wait (trace (snd run)) = [EvWaitpid 77%Z 0].
Proof. vm_compute; repeat split. Qed.

(** When the child exits earlier, the wait that returns its pid is followed
    by a [stat] and a sleep, and the next wait, which fails, ends the loop:
    the exit is noticed one round late. *)
Lemma exit_noticed_at_next_wait :
  let w := Scenario.emmc 77%Z exit_seen_at_0 Scenario.absent
                         (fun _ => INSTALL_SUCCESS) true true in
  wait_reports_exit w 0
  /\ ApplyFromStorage w Scenario.vi (Scenario.start [1%N])
     = (Ret INSTALL_ERROR,
        log Scenario.chosen
            (announce "/sdcard/a.zip"
             ++ [EvWaitpid 77%Z WNOHANG; EvStat "/sideload/package.zip"; EvSleep 1;
                 EvWaitpid 77%Z WNOHANG; EvVolumeUnmount "sd1"])).
Proof. vm_compute; repeat split. Qed.

(** ** C9: fork fails *)

(** C9 (as amended).  ApplyFromStorage has no test for a failed fork: it
    enters the polling loop with the pid -1.  When the first non-blocking
    wait on that pid fails, it returns INSTALL_ERROR having made, after the
    fork, that wait and the unmount only: no stat of the ready path, no
    installer call, no kill. *)
Theorem failed_fork_stops_at_first_wait w vi st path st2 :
  selects w vi st path st2 ->
  fork_ret w = (-1)%Z ->
  waitpid_nohang w 0 = (-1)%Z ->
  ApplyFromStorage w vi st
  = (Ret INSTALL_ERROR,
     log st2 (announce path
              ++ [EvWaitpid (-1)%Z WNOHANG; EvVolumeUnmount (mId vi)])).
Proof.
  intros Hsel Hf Hw.
  rewrite (apply_wait_fails w vi st path st2 0 Hsel); try assumption.
  - rewrite Hf; reflexivity.
  - rewrite Hf; discriminate.
  - unfold SDCARD_INSTALL_TIMEOUT; lia.
  - reflexivity.
Qed.

Lemma failed_fork_stops_at_first_wait_witness :
  ApplyFromStorage (Scenario.emmc (-1)%Z (fun _ => (-1)%Z) Scenario.absent
                                  (fun _ => INSTALL_SUCCESS) true true)
                   Scenario.vi (Scenario.start [1%N])
  = (Ret INSTALL_ERROR,
     log Scenario.chosen (announce "/sdcard/a.zip"
                          ++ [EvWaitpid (-1)%Z WNOHANG; EvVolumeUnmount "sd1"])).
Proof.
  apply (failed_fork_stops_at_first_wait
           (Scenario.emmc (-1)%Z (fun _ => (-1)%Z) Scenario.absent
                          (fun _ => INSTALL_SUCCESS) true true)
           Scenario.vi (Scenario.start [1%N]) "/sdcard/a.zip" Scenario.chosen).
  - pick_a_zip.
  - reflexivity.
  - reflexivity.
Defined.

(** C9, counterexample.  [fork] fails while another child of the process is
    still running, so that [waitpid(-1, &status, WNOHANG)] returns 0.  The
    ready path is polled ten times, SIGKILL is sent to pid -1 and the
    teardown waits, before the unmount and INSTALL_ERROR. *)
Lemma failed_fork_polls_when_wait_succeeds :
  let w := Scenario.emmc (-1)%Z Scenario.running Scenario.absent
                         (fun _ => INSTALL_SUCCESS) true true in
  let run := ApplyFromStorage w Scenario.vi (Scenario.start [1%N]) in
  fork_ret w = (-1)%Z
  /\ fst run = Ret INSTALL_ERROR
  /\ count (is_stat_of "/sideload/package.zip") (trace (snd run)) = 10
  /\ filter is_kill (trace (snd run)) = [EvKill (-1)%Z SIGKILL]
  /\ filter is_blocking_wait (trace (snd run)) = [EvWaitpid (-1)%Z 0].
Proof. vm_compute; repeat split. Qed.

(** ** C5: the timeout *)

Lemma never_ready_spec w i :
  never_ready w = true -> i < SDCARD_INSTALL_TIMEOUT ->
  waitpid_nohang w i <> (-1)%Z
  /\ fst (stat_host w i) = (-1)%Z
  /\ (snd (stat_host w i) =? ENOENT)%Z = true.
Proof.
  unfold never_ready; rewrite forallb_forall; intros H Hi.
  assert (Hin : In i (seq 0 SDCARD_INSTALL_TIMEOUT)) by (apply in_seq; lia).
  apply H in Hin; apply andb_prop in Hin; destruct Hin as [Hin He].
  apply andb_prop in Hin; destruct Hin as [Hw Hs].
  apply negb_true_iff, Z.eqb_neq in Hw; apply Z.eqb_eq in Hs; auto.
Qed.

(** C5.  A child was forked and during all ten iterations the ready path
    does not exist: ApplyFromStorage returns INSTALL_ERROR, having polled ten
    times with nine sleeps in between, sent SIGKILL to the child, and torn
    down (exit path, blocking wait, unmount). *)
Theorem timeout_kills_child w vi st path st2 :
  selects w vi st path st2 ->
  (0 < fork_ret w)%Z ->
  never_ready w = true ->
  ApplyFromStorage w vi st
  = (Ret INSTALL_ERROR,
     log st2 (announce path
              ++ rounds w (fork_ret w) (SDCARD_INSTALL_TIMEOUT - 1)
              ++ [EvWaitpid (fork_ret w) WNOHANG;
                  EvStat (FUSE_SIDELOAD_HOST_PATHNAME (paths w));
                  EvKill (fork_ret w) SIGKILL;
                  EvStat (FUSE_SIDELOAD_HOST_EXIT_PATHNAME (paths w));
                  EvWaitpid (fork_ret w) 0;
                  EvVolumeUnmount (mId vi)])).
Proof.
  intros Hsel Hf Hn.
  apply apply_gives_up; try assumption.
  - lia.
  - unfold SDCARD_INSTALL_TIMEOUT; lia.
  - unfold quiet_until; apply forallb_forall; intros i Hi; apply in_seq in Hi.
    destruct (never_ready_spec w i Hn) as (Hw & Hs & He);
      [unfold SDCARD_INSTALL_TIMEOUT in *; lia|].
    unfold quiet; rewrite Hs, He.
    apply Z.eqb_neq in Hw; rewrite Hw, Z.eqb_refl; cbn [negb andb].
    apply Nat.ltb_lt; unfold SDCARD_INSTALL_TIMEOUT in *; lia.
  - apply (never_ready_spec w _ Hn); unfold SDCARD_INSTALL_TIMEOUT; lia.
  - apply (never_ready_spec w _ Hn); unfold SDCARD_INSTALL_TIMEOUT; lia.
  - rewrite Nat.ltb_irrefl; apply andb_false_r.
Qed.

Lemma timeout_kills_child_witness :
  ApplyFromStorage (Scenario.emmc 77%Z Scenario.running Scenario.absent
                                  (fun _ => INSTALL_SUCCESS) true true)
                   Scenario.vi (Scenario.start [1%N])
  = (Ret INSTALL_ERROR,
     log Scenario.chosen
         (announce "/sdcard/a.zip"
          ++ rounds (Scenario.emmc 77%Z Scenario.running Scenario.absent
                                   (fun _ => INSTALL_SUCCESS) true true) 77%Z 9
          ++ [EvWaitpid 77%Z WNOHANG; EvStat "/sideload/package.zip";
              EvKill 77%Z SIGKILL; EvStat "/sideload/exit";
              EvWaitpid 77%Z 0; EvVolumeUnmount "sd1"])).
Proof.
  apply (timeout_kills_child
           (Scenario.emmc 77%Z Scenario.running Scenario.absent
                          (fun _ => INSTALL_SUCCESS) true true)
           Scenario.vi (Scenario.start [1%N]) "/sdcard/a.zip" Scenario.chosen).
  - pick_a_zip.
  - reflexivity.
  - reflexivity.
Defined.

(** ** C8: one install per readiness *)

(** C8.  The ready path is first there at iteration [k] < 10 (absent
    before, the host still running), and the installer's outcome is neither
    INSTALL_UNVERIFIED nor INSTALL_DOWNGRADE.  Then that outcome is the
    result, and after [k] rounds of waiting the installer is called exactly
    once, on the ready path, with the second flag false, retry count 0,
    verification on and downgrade off. *)
Theorem ready_path_installs_once w vi st path st2 k :
  selects w vi st path st2 ->
  fork_ret w <> 0%Z ->
  ready_at w k = true ->
  is_unverified (install_package w 0 (args_first w)) = false ->
  is_downgrade (install_package w 0 (args_first w)) = false ->
  exists evs,
    ApplyFromStorage w vi st
    = (Ret (install_package w 0 (args_first w)), log st2 (announce path ++ evs))
    /\ evs = rounds w (fork_ret w) k
             ++ [EvWaitpid (fork_ret w) WNOHANG;
                 EvStat (FUSE_SIDELOAD_HOST_PATHNAME (paths w));
                 EvInstall (args_first w);
                 EvStat (FUSE_SIDELOAD_HOST_EXIT_PATHNAME (paths w));
                 EvWaitpid (fork_ret w) 0;
                 EvVolumeUnmount (mId vi)]
    /\ installs_of evs = [args_first w]
    /\ args_first w = {| package := FUSE_SIDELOAD_HOST_PATHNAME (paths w);
                         flag2 := false; flag3 := true; retry_count := 0;
                         verify := true; allow_ab_downgrade := false |}.
Proof.
  intros Hsel Hf Hr Hu Hd; eexists; split; [|split; [reflexivity|]].
  - rewrite (apply_ready w vi st path st2 k (install_package w 0 (args_first w))
               [EvInstall (args_first w)] Hsel Hf Hr).
    + reflexivity.
    + intros s; now apply install_step_final.
  - rewrite installs_of_app, installs_rounds; split; reflexivity.
Qed.

Lemma ready_path_installs_once_witness :
  exists evs,
    ApplyFromStorage (Scenario.emmc 77%Z Scenario.running (Scenario.present_from 3)
                                    (fun _ => INSTALL_SUCCESS) true true)
                     Scenario.vi (Scenario.start [1%N])
    = (Ret INSTALL_SUCCESS, log Scenario.chosen (announce "/sdcard/a.zip" ++ evs))
    /\ evs = rounds (Scenario.emmc 77%Z Scenario.running (Scenario.present_from 3)
                                   (fun _ => INSTALL_SUCCESS) true true) 77%Z 3
             ++ [EvWaitpid 77%Z WNOHANG; EvStat "/sideload/package.zip";
                 EvInstall {| package := "/sideload/package.zip";
                              flag2 := false; flag3 := true; retry_count := 0;
                              verify := true; allow_ab_downgrade := false |};
                 EvStat "/sideload/exit"; EvWaitpid 77%Z 0; EvVolumeUnmount "sd1"]
    /\ installs_of evs = [{| package := "/sideload/package.zip";
                             flag2 := false; flag3 := true; retry_count := 0;
                             verify := true; allow_ab_downgrade := false |}]
    /\ {| package := "/sideload/package.zip";
          flag2 := false; flag3 := true; retry_count := 0;
          verify := true; allow_ab_downgrade := false |}
       = {| package := "/sideload/package.zip";
            flag2 := false; flag3 := true; retry_count := 0;
            verify := true; allow_ab_downgrade := false |}.
Proof.
  apply (ready_path_installs_once
           (Scenario.emmc 77%Z Scenario.running (Scenario.present_from 3)
                          (fun _ => INSTALL_SUCCESS) true true)
           Scenario.vi (Scenario.start [1%N]) "/sdcard/a.zip" Scenario.chosen 3).
  - pick_a_zip.
  - discriminate.
  - reflexivity.
  - reflexivity.
  - reflexivity.
Defined.

(** ** C6: the unverified package *)

(** C6 (as amended).  The ready path is there at iteration [k] and the
    first installer call returns INSTALL_UNVERIFIED.  If the confirmation
    is given, the installer is called a second time on the same path with
    verification off; its outcome is the result, unless it is
    INSTALL_DOWNGRADE and the downgrade is confirmed too, in which case
    the installer is called a third time, with verification off and
    downgrade on, and that outcome is the result.  If the confirmation is
    refused, INSTALL_UNVERIFIED is the result and the installer is not called
    again. *)
Theorem unverified_rerun w vi st path st2 k :
  selects w vi st path st2 ->
  fork_ret w <> 0%Z ->
  ready_at w k = true ->
  install_package w 0 (args_first w) = INSTALL_UNVERIFIED ->
  exists r evs,
    ApplyFromStorage w vi st = (Ret r, log st2 (announce path ++ evs))
    /\ (if ask_to_continue_unverified w then
          if is_downgrade (install_package w 1 (args_unverified w))
             && ask_to_continue_downgrade w
          then installs_of evs = [args_first w; args_unverified w; args_downgrade w]
               /\ r = install_package w 2 (args_downgrade w)
          else installs_of evs = [args_first w; args_unverified w]
               /\ r = install_package w 1 (args_unverified w)
        else installs_of evs = [args_first w] /\ r = INSTALL_UNVERIFIED)
    /\ package (args_unverified w) = package (args_first w)
    /\ verify (args_unverified w) = false
    /\ allow_ab_downgrade (args_unverified w) = false
    /\ verify (args_downgrade w) = false
    /\ allow_ab_downgrade (args_downgrade w) = true.
Proof.
  intros Hsel Hf Hr H0.
  assert (Hrun : forall r evs,
             (forall s, install_step w s = (Ret r, log s evs)) ->
             exists evs',
               ApplyFromStorage w vi st = (Ret r, log st2 (announce path ++ evs'))
               /\ installs_of evs' = installs_of evs).
  { intros r evs Hstep; eexists; split.
    - apply (apply_ready w vi st path st2 k r evs Hsel Hf Hr Hstep).
    - rewrite !installs_of_app, installs_rounds; cbn [installs_of app].
      now rewrite app_nil_r. }
  destruct (ask_to_continue_unverified w) eqn:Hask.
  - destruct (is_downgrade (install_package w 1 (args_unverified w))
              && ask_to_continue_downgrade w) eqn:Hd.
    + apply andb_prop in Hd; destruct Hd as [Hd Hgo].
      assert (H1 : install_package w 1 (args_unverified w) = INSTALL_DOWNGRADE)
        by (destruct (install_package w 1 (args_unverified w)); try discriminate; reflexivity).
      destruct (Hrun _ _ (fun s => install_step_third w s H0 Hask H1 Hgo))
        as (evs & Happly & Hinst).
      exists (install_package w 2 (args_downgrade w)), evs.
      rewrite Hinst; repeat split; assumption.
    + destruct (Hrun _ _ (fun s => install_step_rerun w s H0 Hask Hd))
        as (evs & Happly & Hinst).
      exists (install_package w 1 (args_unverified w)), evs.
      rewrite Hinst, installs_rerun_events; repeat split; assumption.
  - destruct (Hrun _ _ (fun s => install_step_declined w s H0 Hask))
      as (evs & Happly & Hinst).
    exists INSTALL_UNVERIFIED, evs; rewrite Hinst; repeat split; assumption.
Qed.

Lemma unverified_rerun_witness :
  exists r evs,
    ApplyFromStorage unverified_world Scenario.vi (Scenario.start [1%N])
    = (Ret r, log Scenario.chosen (announce "/sdcard/a.zip" ++ evs))
    /\ (installs_of evs = [args_first unverified_world; args_unverified unverified_world]
        /\ r = INSTALL_SUCCESS)
    /\ package (args_unverified unverified_world) = package (args_first unverified_world)
    /\ verify (args_unverified unverified_world) = false
    /\ allow_ab_downgrade (args_unverified unverified_world) = false
    /\ verify (args_downgrade unverified_world) = false
    /\ allow_ab_downgrade (args_downgrade unverified_world) = true.
Proof.
  apply (unverified_rerun unverified_world Scenario.vi (Scenario.start [1%N])
                          "/sdcard/a.zip" Scenario.chosen 0).
  - pick_a_zip.
  - discriminate.
  - reflexivity.
  - reflexivity.
Defined.

(** C6, counterexample.  The first call returns INSTALL_UNVERIFIED and the
    confirmation is given, yet the second outcome, INSTALL_DOWNGRADE, is not
    the result: the installer is called a third time. *)
Lemma second_outcome_not_final :
  let w := unverified_downgrade_world in
  let run := ApplyFromStorage w Scenario.vi (Scenario.start [1%N]) in
  install_package w 0 (args_first w) = INSTALL_UNVERIFIED
  /\ ask_to_continue_unverified w = true
  /\ install_package w 1 (args_unverified w) = INSTALL_DOWNGRADE
  /\ installs_of (trace (snd run)) = [args_first w; args_unverified w; args_downgrade w]
  /\ fst run = Ret INSTALL_SUCCESS.
Proof. vm_compute; repeat split. Qed.

(** ** C4: unmount *)

Lemma menus_no_unmount evs :
  Forall (fun e => is_menu e = true) evs -> count is_unmount evs = 0.
Proof.
  induction 1 as [|e evs He _ IH]; [reflexivity|].
  destruct e; try discriminate; exact IH.
Qed.

Lemma count_log p st evs : count p (trace (log st evs)) = count p (trace st) + count p evs.
Proof. unfold log; cbn [trace]; apply count_app. Qed.

(** C4 (as amended).  In the parent process, once the mount step has
    answered and, if it succeeded, browsing has returned, ApplyFromStorage
    has called unmount exactly once if the volume was mounted and the browse
    result is not "@", and not at all otherwise: not after "go home", and
    not after a failed mount, when it returns INSTALL_ERROR. *)
Theorem unmount_once_when_mounted w vi st mounted st1 path st2 :
  mount_storage w vi st = (Ret mounted, st1) ->
  (mounted = true -> Browse w (mPath vi) st1 = (Ret path, st2)) ->
  fork_ret w <> 0%Z ->
  exists r st',
    ApplyFromStorage w vi st = (Ret r, st')
    /\ count is_unmount (trace st')
       = count is_unmount (trace st)
         + (if mounted && negb (path =? "@")%string then 1 else 0)
    /\ (mounted = false -> r = INSTALL_ERROR).
Proof.
  intros Hm Hb Hf.
  destruct (mount_storage_total w vi st) as (b & evs0 & Hm' & Hc0 & _).
  rewrite Hm in Hm'; injection Hm' as -> ->.
  unfold ApplyFromStorage, bind; rewrite Hm.
  destruct b; cbn [negb andb].
  2:{ do 2 eexists; split; [reflexivity|]; split; [|reflexivity].
      rewrite count_log, Hc0; reflexivity. }
  specialize (Hb eq_refl); rewrite Hb.
  pose proof Hb as Hpost; apply BrowseDirectory_post in Hpost.
  destruct Hpost as (evsb & _ & Ht2 & Hmenus & _ & _).
  apply menus_no_unmount in Hmenus.
  assert (Hc2 : count is_unmount (trace st2) = count is_unmount (trace st)).
  { rewrite Ht2, count_app, count_log, Hc0, Hmenus; lia. }
  destruct (path =? "@")%string; cbn [negb].
  { do 2 eexists; split; [reflexivity|]; split; [|discriminate]. rewrite Hc2; lia. }
  destruct (Str.empty path).
  { unfold ret; rewrite emit_log.
    do 2 eexists; split; [reflexivity|]; split; [|discriminate].
    rewrite count_log, Hc2; reflexivity. }
  destruct (poll_total w (fork_ret w) SDCARD_INSTALL_TIMEOUT 0 (log st2 (announce path)))
    as (rw & evsp & Hp & Hcp).
  rewrite (install_selected_parent w vi path st2 rw _ Hf Hp).
  do 2 eexists; split; [reflexivity|]; split; [|discriminate].
  rewrite !count_log, Hc2, Hcp.
  unfold teardown; destruct (snd rw); cbn; lia.
Qed.

Lemma unmount_once_when_mounted_witness :
  exists r st',
    ApplyFromStorage (Scenario.emmc 77%Z Scenario.running (Scenario.present_from 3)
                                    (fun _ => INSTALL_ERROR) true true)
                     Scenario.vi (Scenario.start [1%N])
    = (Ret r, st')
    /\ count is_unmount (trace st') = count is_unmount (trace (Scenario.start [1%N])) + 1
    /\ (true = false -> r = INSTALL_ERROR).
Proof.
  apply (unmount_once_when_mounted
           (Scenario.emmc 77%Z Scenario.running (Scenario.present_from 3)
                          (fun _ => INSTALL_ERROR) true true)
           Scenario.vi (Scenario.start [1%N]) true
           {| trace := [EvVolumeMount "sd1"]; keys := [1%N] |}
           "/sdcard/a.zip" Scenario.chosen).
  - reflexivity.
  - intros _; reflexivity.
  - discriminate.
Defined.

(** C4, counterexample.  The volume manager fails to mount: ApplyFromStorage
    returns INSTALL_ERROR after that one call, without an unmount, and there
    is no browse result. *)
Lemma failed_mount_has_no_unmount :
  ApplyFromStorage (Scenario.world Scenario.sdcard "7824900.sdhci" "vfat" false 77%Z
                                   Scenario.running Scenario.absent
                                   (fun _ => INSTALL_SUCCESS) true true)
                   Scenario.vi (Scenario.start [1%N])
  = (Ret INSTALL_ERROR, {| trace := [EvVolumeMount "sd1"]; keys := [1%N] |}).
Proof. reflexivity. Qed.

(** ** C7: the UFS mount *)

(** C7.  On a UFS device ([is_ufs_dev] is not 0), when the fstab volume of
    /sdcard has a type other than "vfat", ApplyFromStorage returns
    INSTALL_ERROR and has called nothing: the state, trace included, is the
    one it started in, so there was no [mount] and no [fork]. *)
Theorem ufs_unsupported_type_fails w vi st v :
  is_ufs_dev w <> 0%Z ->
  volume_for_mount_point w "/sdcard" = Some v ->
  Str.c_str (fs_type v) <> "vfat" ->
  ApplyFromStorage w vi st = (Ret INSTALL_ERROR, st).
Proof.
  intros Hufs Hv Hfs.
  unfold ApplyFromStorage, mount_storage, bind.
  apply Z.eqb_neq in Hufs; rewrite Hufs; cbn [negb].
  rewrite (do_sdcard_mount_unsupported w v st Hv Hfs); reflexivity.
Qed.

Lemma ufs_unsupported_type_fails_witness :
  ApplyFromStorage (Scenario.world Scenario.sdcard "1d84000.ufshc" "ext4" true 77%Z
                                   Scenario.running (Scenario.present_from 0)
                                   (fun _ => INSTALL_SUCCESS) true true)
                   Scenario.vi (Scenario.start [1%N])
  = (Ret INSTALL_ERROR, Scenario.start [1%N]).
Proof.
  apply (ufs_unsupported_type_fails
           (Scenario.world Scenario.sdcard "1d84000.ufshc" "ext4" true 77%Z
                           Scenario.running (Scenario.present_from 0)
                           (fun _ => INSTALL_SUCCESS) true true)
           Scenario.vi (Scenario.start [1%N])
           {| mount_point := "/sdcard"; fs_type := "ext4"; flags := 0; fs_options := "" |}).
  - vm_compute; discriminate.
  - reflexivity.
  - vm_compute; discriminate.
Defined.

(** ** C10: what BrowseDirectory returns *)

Section OutOfBounds.
Variable w : World.



End OutOfBounds.




(** ** C2: an interrupted menu *)

Section Descent.
Variable w : World.

Let INT := INTERRUPTED (consts w).

Lemma descend_opens path ds p :
  descend w path ds = Some p -> exists des, opendir w path = Some des.
Proof. destruct ds; cbn; destruct (opendir w path); try discriminate; eauto. Qed.

Lemma descend_cons path c ds p :
  descend w path (c :: ds) = Some p ->
  exists des item,
    opendir w path = Some des
    /\ is_sentinel w c = false
    /\ nth_error (menu_entries des) (N.to_nat c) = Some item
    /\ Str.back (path ++ "/" ++ item) = Some "/"%char
    /\ descend w (Str.pop_back (path ++ "/" ++ item)) ds = Some p.
Proof.
  cbn [descend]; destruct (opendir w path) as [des|] eqn:Ho; [|discriminate].
  destruct (is_sentinel w c) eqn:Hs; [discriminate|].
  destruct (nth_error (menu_entries des) (N.to_nat c)) as [item|] eqn:Hi; [|discriminate].
  destruct (Str.back (path ++ "/" ++ item)) as [last|] eqn:Hb; [|discriminate].
  destruct (ascii_dec last "/"%char) as [->|Hl].
  - intros H; exists des, item; repeat split; try reflexivity; assumption.
  - destruct last as [[] [] [] [] [] [] [] []]; try discriminate; congruence.
Qed.

(** An interrupted menu read ends the call that made it, with "". *)
Lemma on_answer_interrupted browse again path entries st :
  on_answer w browse again path entries INT st = (Ret "", st).
Proof. unfold on_answer, INT; now rewrite N.eqb_refl. Qed.

(** An answer that picks a subdirectory: browse it, and show the menu
    again if that returns "". *)
Lemma on_answer_descends browse again path entries c item st :
  is_sentinel w c = false ->
  nth_error entries (N.to_nat c) = Some item ->
  Str.back (path ++ "/" ++ item) = Some "/"%char ->
  on_answer w browse again path entries c st
  = bind (browse (Str.pop_back (path ++ "/" ++ item)))
         (fun result => if negb (Str.empty result) then ret result else again c) st.
Proof.
  unfold is_sentinel, on_answer; intros Hs Hi Hb.
  apply orb_false_elim in Hs; destruct Hs as [Hs H0].
  apply orb_false_elim in Hs; destruct Hs as [Hs Hback].
  apply orb_false_elim in Hs; destruct Hs as [Hint Hhome].
  now rewrite Hint, Hhome, Hback, H0, Hi, Hb.
Qed.

Lemma repeat_shift (x : N) n l : repeat x (S n) ++ l = repeat x n ++ x :: l.
Proof. cbn [repeat]; rewrite repeat_cons, <- app_assoc; reflexivity. Qed.

(** After [length ds] descents, as many interrupted reads in a row as there
    are levels end the browsing with ""; every enclosing level shows its
    menu once more on the way. *)
Lemma descend_interrupted : forall ds path p fuel tr rest,
  descend w path ds = Some p ->
  List.length ds + 2 <= fuel ->
  exists evs,
    BrowseDirectory w fuel path
      {| trace := tr; keys := ds ++ repeat INT (S (List.length ds)) ++ rest |}
    = (Ret "", {| trace := tr ++ evs; keys := rest |})
    /\ List.length evs = 2 * List.length ds + 1.
Proof.
  induction ds as [|c ds IH]; intros path p fuel tr rest Hd Hf.
  - apply descend_opens in Hd; destruct Hd as (des & Hopen).
    destruct fuel as [|[|fuel]]; cbn [List.length] in Hf; try lia.
    rewrite BrowseDirectory_step, Hopen, menu_loop_step; cbn [keys app repeat].
    rewrite on_answer_interrupted; eexists; split; reflexivity.
  - apply descend_cons in Hd.
    destruct Hd as (des & item & Hopen & Hs & Hitem & Hback & Hd).
    destruct fuel as [|[|fuel]]; cbn [List.length] in Hf; try lia.
    rewrite BrowseDirectory_step, Hopen, menu_loop_step; cbn [keys app List.length].
    rewrite (on_answer_descends _ _ _ _ c item _ Hs Hitem Hback).
    unfold bind, shown; cbn [trace keys tl]; rewrite repeat_shift.
    destruct (IH _ p (S fuel) (tr ++ [EvShowMenu ["Choose a package to install:"; path]
                                             (menu_entries des) 0])
                 (INT :: rest) Hd) as (evs & Hrun & Hlen); [lia|].
    rewrite Hrun; cbn [Str.empty negb].
    destruct fuel as [|fuel]; [lia|].
    rewrite menu_loop_step; cbn [keys]; rewrite on_answer_interrupted.
    unfold shown; cbn [trace keys tl]; rewrite <- !app_assoc.
    eexists; split; [reflexivity|].
    rewrite !length_app, Hlen; cbn; lia.
Qed.

(** With fewer interrupted reads than levels, browsing is not over: it
    waits at a menu, the one of an enclosing level if a read was
    interrupted. *)
Lemma descend_waiting : forall ds path p fuel tr m,
  descend w path ds = Some p ->
  List.length ds + 2 <= fuel ->
  m <= List.length ds ->
  exists evs,
    BrowseDirectory w fuel path {| trace := tr; keys := ds ++ repeat INT m |}
    = (Stop Blocked, {| trace := tr ++ evs; keys := [] |})
    /\ List.length evs = List.length ds + 1 + m.
Proof.
  induction ds as [|c ds IH]; intros path p fuel tr m Hd Hf Hm.
  - apply descend_opens in Hd; destruct Hd as (des & Hopen).
    destruct fuel as [|[|fuel]]; cbn [List.length] in Hf, Hm; try lia.
    assert (m = 0) as -> by lia.
    rewrite BrowseDirectory_step, Hopen, menu_loop_step; cbn [keys app repeat].
    eexists; split; reflexivity.
  - pose proof Hd as Hd0; apply descend_cons in Hd.
    destruct Hd as (des & item & Hopen & Hs & Hitem & Hback & Hd).
    destruct fuel as [|[|fuel]]; cbn [List.length] in Hf, Hm; try lia.
    rewrite BrowseDirectory_step, Hopen, menu_loop_step; cbn [keys app List.length].
    rewrite (on_answer_descends _ _ _ _ c item _ Hs Hitem Hback).
    unfold bind, shown; cbn [trace keys tl].
    destruct (Nat.eq_dec m (S (List.length ds))) as [->|Hne].
    + rewrite <- (app_nil_r (repeat INT (S (List.length ds)))).
      destruct (descend_interrupted ds _ p (S fuel)
                  (tr ++ [EvShowMenu ["Choose a package to install:"; path]
                                     (menu_entries des) 0]) [] Hd)
        as (evs & Hrun & Hlen); [lia|].
      rewrite Hrun; cbn [Str.empty negb].
      destruct fuel as [|fuel]; [lia|].
      rewrite menu_loop_step; cbn [keys]; unfold shown; cbn [trace keys tl].
      rewrite <- !app_assoc; eexists; split; [reflexivity|].
      rewrite !length_app, Hlen; cbn; lia.
    + destruct (IH _ p (S fuel) (tr ++ [EvShowMenu ["Choose a package to install:"; path]
                                               (menu_entries des) 0]) m Hd)
        as (evs & Hrun & Hlen); [lia | lia |].
      rewrite Hrun, <- app_assoc; eexists; split; [reflexivity|].
      rewrite length_app, Hlen; cbn; lia.
Qed.

(** The go-home answer ends the call that reads it with "@", unless the
    constant coincides with the interrupt one, which is tested first. *)
Lemma on_answer_go_home browse again path entries st :
  kGoHome (consts w) <> INTERRUPTED (consts w) ->
  on_answer w browse again path entries (kGoHome (consts w)) st = (Ret "@", st).
Proof.
  intros Hne; unfold on_answer.
  apply N.eqb_neq in Hne; now rewrite Hne, N.eqb_refl.
Qed.

(** "@" is not empty, so every enclosing level returns it at once. *)
Lemma descend_go_home : forall ds path p fuel tr rest,
  kGoHome (consts w) <> INTERRUPTED (consts w) ->
  descend w path ds = Some p ->
  List.length ds + 2 <= fuel ->
  exists evs,
    BrowseDirectory w fuel path
      {| trace := tr; keys := ds ++ kGoHome (consts w) :: rest |}
    = (Ret "@", {| trace := tr ++ evs; keys := rest |})
    /\ List.length evs = List.length ds + 1.
Proof.
  induction ds as [|c ds IH]; intros path p fuel tr rest Hne Hd Hf.
  - apply descend_opens in Hd; destruct Hd as (des & Hopen).
    destruct fuel as [|[|fuel]]; cbn [List.length] in Hf; try lia.
    rewrite BrowseDirectory_step, Hopen, menu_loop_step; cbn [keys app].
    rewrite on_answer_go_home by assumption; eexists; split; reflexivity.
  - apply descend_cons in Hd.
    destruct Hd as (des & item & Hopen & Hs & Hitem & Hback & Hd).
    destruct fuel as [|[|fuel]]; cbn [List.length] in Hf; try lia.
    rewrite BrowseDirectory_step, Hopen, menu_loop_step; cbn [keys app List.length].
    rewrite (on_answer_descends _ _ _ _ c item _ Hs Hitem Hback).
    unfold bind, shown; cbn [trace keys tl].
    destruct (IH _ p (S fuel) (tr ++ [EvShowMenu ["Choose a package to install:"; path]
                                             (menu_entries des) 0])
                 rest Hne Hd) as (evs & Hrun & Hlen); [lia|].
    rewrite Hrun, <- app_assoc; cbn [Str.empty negb]; unfold ret.
    eexists; split; [reflexivity|].
    rewrite length_app, Hlen; cbn; lia.
Qed.

End Descent.

(** C2 (as amended).  An interrupted menu read makes the BrowseDirectory
    call that made it return "" at once, whatever the level.  An enclosing
    level takes that "" as it takes "go back" and shows its menu again, so
    the interruption reaches the top-level caller only if the reads that
    follow are interrupted too: after [length ds] descents, at depth
    [N = S (length ds)], [N] interrupted reads in a row end browsing with ""
    after one more menu per enclosing level, and any fewer leave it waiting
    at a menu. *)
Theorem interrupt_returns_one_level w root ds p tr rest :
  descend w root ds = Some p ->
  (forall browse fuel path headers entries c st,
      hd_error (keys st) = Some (INTERRUPTED (consts w)) ->
      menu_loop w browse (S fuel) path headers entries c st
      = (Ret "", shown st headers entries c))
  /\ (exists evs,
        Browse w root
          {| trace := tr;
             keys := ds ++ repeat (INTERRUPTED (consts w)) (S (List.length ds)) ++ rest |}
        = (Ret "", {| trace := tr ++ evs; keys := rest |})
        /\ List.length evs = 2 * List.length ds + 1)
  /\ (forall m, m <= List.length ds ->
        exists evs,
          Browse w root {| trace := tr; keys := ds ++ repeat (INTERRUPTED (consts w)) m |}
          = (Stop Blocked, {| trace := tr ++ evs; keys := [] |})
          /\ List.length evs = List.length ds + 1 + m).
Proof.
  intros Hd; split; [|split].
  - intros browse fuel path headers entries c st Hk.
    rewrite menu_loop_step.
    destruct (keys st) as [|k ks]; [discriminate|].
    injection Hk as ->; apply on_answer_interrupted.
  - apply (descend_interrupted w ds root p); [assumption|].
    unfold browse_fuel; cbn [keys]; rewrite length_app; lia.
  - intros m Hm; apply (descend_waiting w ds root p); [assumption | | assumption].
    unfold browse_fuel; cbn [keys]; rewrite length_app; lia.
Qed.

Lemma interrupt_returns_one_level_witness :
  (forall browse fuel path headers entries c st,
      hd_error (keys st) = Some (INTERRUPTED (consts browse_world)) ->
      menu_loop browse_world browse (S fuel) path headers entries c st
      = (Ret "", shown st headers entries c))
  /\ (exists evs,
        Browse browse_world "/sdcard"
          {| trace := [];
             keys := [2%N] ++ repeat (INTERRUPTED (consts browse_world)) 2 ++ [1%N] |}
        = (Ret "", {| trace := [] ++ evs; keys := [1%N] |})
        /\ List.length evs = 2 * 1 + 1)
  /\ (forall m, m <= 1 ->
        exists evs,
          Browse browse_world "/sdcard"
                 {| trace := []; keys := [2%N] ++ repeat (INTERRUPTED (consts browse_world)) m |}
          = (Stop Blocked, {| trace := [] ++ evs; keys := [] |})
          /\ List.length evs = 1 + 1 + m).
Proof.
  apply (interrupt_returns_one_level browse_world "/sdcard" [2%N] "/sdcard/Sub" [] [1%N]).
  reflexivity.
Defined.

(** C2, counterexample.  In /sdcard the user enters Sub (answer 2), the
    menu read there, at depth 2, is interrupted, and the next answer is 1:
    the menu of /sdcard is shown again after the interrupt, and the
    top-level result is the package, not "". *)
Lemma interrupt_below_top_resumes_parent :
  Browse browse_world "/sdcard"
         (Scenario.start [2%N; INTERRUPTED Scenario.menu_consts; 1%N])
  = (Ret "/sdcard/a.zip",
     {| trace :=
          [EvShowMenu ["Choose a package to install:"; "/sdcard"]
                      ["../"; "a.zip"; "Sub/"] 0;
           EvShowMenu ["Choose a package to install:"; "/sdcard/Sub"] ["../"] 0;
           EvShowMenu ["Choose a package to install:"; "/sdcard"]
                      ["../"; "a.zip"; "Sub/"] 2];
        keys := [] |}).
Proof. reflexivity. Qed.

(** ** C3: the menu *)

(** C3, the code at the failing input.  ["../"] is sorted together with the
    package names, so "-a.zip" comes before it: the menu shown does not start
    with the go-up entry, and answer 0, which the loop takes for go-up,
    is that package. *)
Lemma go_up_entry_sorted_with_packages :
  menu_entries dash_directory = ["-a.zip"; "../"; "b.zip"; "Sub/"]
  /\ Browse dash_world "/sdcard" (Scenario.start [0%N])
     = (Ret "",
        {| trace := [EvShowMenu ["Choose a package to install:"; "/sdcard"]
                                ["-a.zip"; "../"; "b.zip"; "Sub/"] 0];
           keys := [] |}).
Proof. split; reflexivity. Qed.

(** * Further properties *)

(** ** Go home *)

(** X1.  The go-home answer at any depth ends the browsing with "@": after
    [length ds] descents it is returned through every enclosing level
    without another menu being shown, provided the constant differs from
    the interrupt one, which the loop tests first. *)
Theorem go_home_reaches_top w root ds p tr rest :
  kGoHome (consts w) <> INTERRUPTED (consts w) ->
  descend w root ds = Some p ->
  exists evs,
    Browse w root {| trace := tr; keys := ds ++ kGoHome (consts w) :: rest |}
    = (Ret "@", {| trace := tr ++ evs; keys := rest |})
    /\ List.length evs = List.length ds + 1.
Proof.
  intros Hne Hd; apply (descend_go_home w ds root p); try assumption.
  unfold browse_fuel; cbn [keys]; rewrite length_app; lia.
Qed.

Lemma go_home_reaches_top_witness :
  exists evs,
    Browse browse_world "/sdcard"
           {| trace := []; keys := [2%N] ++ kGoHome (consts browse_world) :: [1%N] |}
    = (Ret "@", {| trace := [] ++ evs; keys := [1%N] |})
    /\ List.length evs = 1 + 1.
Proof.
  apply (go_home_reaches_top browse_world "/sdcard" [2%N] "/sdcard/Sub" [] [1%N]).
  - discriminate.
  - reflexivity.
Defined.

(** ** The menu when no name sorts before the go-up entry *)

(** X2.  If no package name of the directory sorts before ["../"], the menu
    BrowseDirectory shows is ["../"], then the package names in ascending
    order, then the subdirectories, each followed by a slash, in ascending
    order. *)
Theorem menu_is_up_packages_subdirs des :
  Forall (string_le "../") (packages des) ->
  exists ps ds,
    menu_entries des = "../" :: ps ++ ds
    /\ StronglySorted string_le ps /\ Permutation ps (packages des)
    /\ StronglySorted string_le ds /\ Permutation ds (subdirs des).
Proof.
  intros H; exists (std_sort (packages des)), (std_sort (subdirs des)).
  rewrite menu_entries_go_up_first by assumption.
  repeat split; first [apply std_sort_sorted | apply std_sort_perm].
Qed.

Lemma menu_is_up_packages_subdirs_witness :
  exists ps ds,
    menu_entries [Scenario.dir "Sub"; Scenario.file "b.zip"; Scenario.file "A.ZIP";
                  Scenario.file "notes.txt"; Scenario.dir "Alpha"]
    = "../" :: ps ++ ds
    /\ StronglySorted string_le ps
    /\ Permutation ps (packages [Scenario.dir "Sub"; Scenario.file "b.zip";
                                 Scenario.file "A.ZIP"; Scenario.file "notes.txt";
                                 Scenario.dir "Alpha"])
    /\ StronglySorted string_le ds
    /\ Permutation ds (subdirs [Scenario.dir "Sub"; Scenario.file "b.zip";
                                Scenario.file "A.ZIP"; Scenario.file "notes.txt";
                                Scenario.dir "Alpha"]).
Proof.
  apply (menu_is_up_packages_subdirs
           [Scenario.dir "Sub"; Scenario.file "b.zip"; Scenario.file "A.ZIP";
            Scenario.file "notes.txt"; Scenario.dir "Alpha"]).
  repeat constructor.
Defined.

(** ** Giving up *)

Section GivingUp.
Variable w : World.
Variable child : pid_t.

Lemma poll_hopeless : forall n i st,
  0 < n -> i + n = SDCARD_INSTALL_TIMEOUT ->
  hopeless_from w i n ->
  exists evs,
    poll_from w child n i st = (Ret (INSTALL_ERROR, false), log st evs)
    /\ filter is_kill evs = [EvKill child SIGKILL]
    /\ installs_of evs = []
    /\ count is_unmount evs = 0.
Proof.
  induction n as [|n IH]; intros i st Hn Hi Hh; [lia|].
  destruct (Hh i) as [Hw Hs]; [lia|].
  destruct ((snd (stat_host w i) =? ENOENT)%Z && (i <? SDCARD_INSTALL_TIMEOUT - 1)%nat)
    eqn:Hgo.
  - assert (Hq : quiet w i = true).
    { unfold quiet; apply Z.eqb_neq in Hw; rewrite Hw, Hs, Z.eqb_refl; exact Hgo. }
    rewrite poll_quiet_step by assumption.
    apply andb_prop in Hgo; destruct Hgo as [_ Hlt]; apply Nat.ltb_lt in Hlt.
    destruct (IH (S i) (log st (round w child))) as (evs & Hrun & Hk & Hi' & Hu).
    + lia.
    + lia.
    + intros x Hx; apply Hh; lia.
    + rewrite Hrun, log_log; eexists; split; [reflexivity|].
      rewrite filter_app, installs_of_app, count_app, Hk, Hi', Hu; repeat split.
  - rewrite poll_gives_up by assumption.
    eexists; split; [reflexivity|]; repeat split.
Qed.

End GivingUp.

(** X3.  Whatever [errno] says: if during the bound the non-blocking wait
    never fails and [stat] of the ready path never succeeds,
    ApplyFromStorage returns INSTALL_ERROR, has sent SIGKILL to the child
    exactly once and has not called the installer. *)
Theorem no_ready_path_kills_child w vi st path st2 :
  selects w vi st path st2 ->
  fork_ret w <> 0%Z ->
  hopeless_from w 0 SDCARD_INSTALL_TIMEOUT ->
  exists evs,
    ApplyFromStorage w vi st = (Ret INSTALL_ERROR, log st2 (announce path ++ evs))
    /\ filter is_kill evs = [EvKill (fork_ret w) SIGKILL]
    /\ installs_of evs = []
    /\ count is_unmount evs = 1.
Proof.
  intros Hsel Hf Hh.
  destruct (poll_hopeless w (fork_ret w) SDCARD_INSTALL_TIMEOUT 0
                          (log st2 (announce path)))
    as (evs & Hrun & Hk & Hi & Hu); [unfold SDCARD_INSTALL_TIMEOUT; lia | reflexivity
                                     | assumption |].
  rewrite (apply_selected _ _ _ _ _ Hsel).
  rewrite (install_selected_parent w vi path st2 _ _ Hf Hrun), !log_log.
  cbn [fst snd]; unfold teardown.
  eexists; split; [reflexivity|].
  rewrite filter_app, installs_of_app, count_app, Hk, Hi, Hu; repeat split.
Qed.

Lemma no_ready_path_kills_child_witness :
  exists evs,
    ApplyFromStorage (Scenario.emmc 77%Z Scenario.running denied_at_2
                                    (fun _ => INSTALL_SUCCESS) true true)
                     Scenario.vi (Scenario.start [1%N])
    = (Ret INSTALL_ERROR, log Scenario.chosen (announce "/sdcard/a.zip" ++ evs))
    /\ filter is_kill evs = [EvKill 77%Z SIGKILL]
    /\ installs_of evs = []
    /\ count is_unmount evs = 1.
Proof.
  apply (no_ready_path_kills_child
           (Scenario.emmc 77%Z Scenario.running denied_at_2
                          (fun _ => INSTALL_SUCCESS) true true)
           Scenario.vi (Scenario.start [1%N]) "/sdcard/a.zip" Scenario.chosen).
  - pick_a_zip.
  - discriminate.
  - intros x Hx; unfold denied_at_2; cbn.
    split; [discriminate | destruct (x =? 2)%nat; reflexivity].
Defined.

(** ** A package name below the go-up entry *)

(** X4.  If some package name of the directory sorts strictly before
    ["../"], the first entry of the menu is not the go-up entry. *)
Theorem go_up_entry_not_first des name :
  In name (packages des) ->
  String.ltb name "../" = true ->
  hd_error (menu_entries des) <> Some "../".
Proof. apply menu_entries_go_up_displaced. Qed.

Lemma go_up_entry_not_first_witness :
  hd_error (menu_entries dash_directory) <> Some "../".
Proof.
  apply (go_up_entry_not_first dash_directory "-a.zip").
  - vm_compute; auto.
  - reflexivity.
Defined.

(** ** The mount step *)

(** X5.  The mount step.  On a UFS device whose /sdcard volume is "vfat",
    [mount] is called once, on the fixed block device, with the mount
    point, type, flags and options of the volume, and the step succeeds
    exactly when [mount] returns 0; the volume manager is not asked. *)
Theorem ufs_vfat_mounts_block_device w vi st v :
  is_ufs_dev w <> 0%Z ->
  volume_for_mount_point w "/sdcard" = Some v ->
  Str.c_str (fs_type v) = "vfat" ->
  mount_storage w vi st
  = (Ret (mount_rc w =? 0)%Z,
     log st [EvMount "/dev/block/mmcblk0p1" (mount_point v) (fs_type v)
                     (flags v) (fs_options v)]).
Proof.
  intros Hufs Hv Hfs; unfold mount_storage, bind.
  apply Z.eqb_neq in Hufs; rewrite Hufs; cbn [negb].
  rewrite (do_sdcard_mount_vfat w v st Hv Hfs).
  destruct (mount_rc w =? 0)%Z; reflexivity.
Qed.

Lemma ufs_vfat_mounts_block_device_witness :
  mount_storage (Scenario.world Scenario.sdcard "1d84000.ufshc" "vfat" true 77%Z
                                Scenario.running (Scenario.present_from 0)
                                (fun _ => INSTALL_SUCCESS) true true)
                Scenario.vi (Scenario.start [1%N])
  = (Ret true,
     log (Scenario.start [1%N])
         [EvMount "/dev/block/mmcblk0p1" "/sdcard" "vfat" 0 ""]).
Proof.
  apply (ufs_vfat_mounts_block_device
           (Scenario.world Scenario.sdcard "1d84000.ufshc" "vfat" true 77%Z
                           Scenario.running (Scenario.present_from 0)
                           (fun _ => INSTALL_SUCCESS) true true)
           Scenario.vi (Scenario.start [1%N])
           {| mount_point := "/sdcard"; fs_type := "vfat"; flags := 0; fs_options := "" |}).
  - vm_compute; discriminate.
  - reflexivity.
  - reflexivity.
Defined.

(** ** The UFS test *)

Lemma c_str_fixed_cons x s :
  Str.c_str (String x s) = String x s -> x <> zero /\ Str.c_str s = s.
Proof.
  cbn; destruct (x =? zero)%char eqn:E; [discriminate|].
  intros [= H]; split; [now apply Ascii.eqb_neq | assumption].
Qed.

(** A part of a string without NUL has no NUL. *)
Lemma c_str_fixed_substring : forall s k n,
  Str.c_str s = s -> Str.c_str (substring k n s) = substring k n s.
Proof.
  induction s as [|x s IH]; intros k n H.
  - destruct k, n; reflexivity.
  - apply c_str_fixed_cons in H; destruct H as [Hx Hs].
    destruct k as [|k]; [destruct n as [|n]; [reflexivity|] |]; cbn [substring].
    + cbn [Str.c_str]; apply Ascii.eqb_neq in Hx; rewrite Hx; now rewrite IH.
    + now apply IH.
Qed.

(** X6.  [is_ufs_dev] answers 1 when the value of ro.boot.bootdevice has at
    least seven characters and ends in ".ufshc", and 0 otherwise. *)
Theorem is_ufs_dev_suffix w :
  Str.c_str (bootdevice w) = bootdevice w ->
  is_ufs_dev w
  = if (7 <=? String.length (bootdevice w))%nat
       && (Str.tail 6 (bootdevice w) =? ".ufshc")%string
    then 1%Z else 0%Z.
Proof.
  intros Hb; unfold is_ufs_dev; rewrite Hb.
  change (String.length ".ufshc") with 6; change (6 + 1) with 7.
  destruct (String.length (bootdevice w) <? 7)%nat eqn:Hlen.
  - apply Nat.ltb_lt in Hlen.
    replace (7 <=? String.length (bootdevice w))%nat with false
      by (symmetry; apply Nat.leb_gt; lia).
    reflexivity.
  - apply Nat.ltb_ge in Hlen.
    replace (7 <=? String.length (bootdevice w))%nat with true
      by (symmetry; apply Nat.leb_le; lia).
    cbn [andb].
    assert (Hfrom : Str.from (String.length (bootdevice w) - 6) (bootdevice w)
                    = Str.tail 6 (bootdevice w)).
    { unfold Str.from, Str.tail; f_equal; lia. }
    rewrite Hfrom.
    assert (Hfix : Str.c_str (Str.tail 6 (bootdevice w)) = Str.tail 6 (bootdevice w))
      by (apply c_str_fixed_substring, Hb).
    destruct (Str.tail 6 (bootdevice w) =? ".ufshc")%string eqn:E.
    + apply String.eqb_eq in E; rewrite E; reflexivity.
    + destruct (Str.strncmp_eq (Str.tail 6 (bootdevice w)) ".ufshc"
                               (Str.sizeof_lit ".ufshc")) eqn:S; [|reflexivity].
      apply strncmp_eq_c_str in S; [|apply Nat.ltb_lt; reflexivity].
      rewrite Hfix in S; apply String.eqb_neq in E; contradiction.
Qed.

Lemma is_ufs_dev_suffix_witness :
  is_ufs_dev (Scenario.world Scenario.sdcard "1d84000.ufshc" "vfat" true 77%Z
                             Scenario.running Scenario.absent
                             (fun _ => INSTALL_SUCCESS) true true)
  = 1%Z.
Proof.
  apply (is_ufs_dev_suffix
           (Scenario.world Scenario.sdcard "1d84000.ufshc" "vfat" true 77%Z
                           Scenario.running Scenario.absent
                           (fun _ => INSTALL_SUCCESS) true true)).
  reflexivity.
Defined.

(** ** Results of nested calls *)

Section Nesting.
Variable w : World.

Lemma descend_nil path p : descend w path [] = Some p -> p = path.
Proof. cbn; destruct (opendir w path); [now intros [= ->] | discriminate]. Qed.

(** The menus shown on the way down do not depend on what follows, and
    whatever the call at the bottom ends with, other than "", is what the
    call at the top ends with. *)
Lemma descend_propagates : forall ds path p,
  descend w path ds = Some p ->
  exists down,
    List.length down = List.length ds
    /\ forall f tr rest o st',
         1 <= f ->
         BrowseDirectory w f p {| trace := tr ++ down; keys := rest |} = (o, st') ->
         o <> Ret "" ->
         BrowseDirectory w (List.length ds + f) path {| trace := tr; keys := ds ++ rest |}
         = (o, st').
Proof.
  induction ds as [|c ds IH]; intros path p Hd.
  - apply descend_nil in Hd; subst p; exists []; split; [reflexivity|].
    intros f tr rest o st' _ Hrun _; now rewrite app_nil_r in Hrun.
  - apply descend_cons in Hd.
    destruct Hd as (des & item & Hopen & Hs & Hitem & Hback & Hd).
    destruct (IH _ _ Hd) as (down & Hlen & Hprop).
    exists (EvShowMenu ["Choose a package to install:"; path] (menu_entries des) 0 :: down).
    split; [cbn; now rewrite Hlen|].
    intros f tr rest o st' Hf Hrun Hne.
    cbn [List.length Nat.add]; rewrite BrowseDirectory_step, Hopen.
    destruct (List.length ds + f) as [|m] eqn:Hm; [lia|].
    rewrite menu_loop_step; cbn [keys app].
    rewrite (on_answer_descends _ _ _ _ _ c item _ Hs Hitem Hback).
    unfold bind, shown; cbn [trace keys tl].
    rewrite <- Hm, (Hprop f _ rest o st' Hf); [| now rewrite <- app_assoc | assumption].
    destruct o as [r|h]; [|reflexivity].
    destruct r; [congruence | reflexivity].
Qed.

End Nesting.

(** The same for [Browse], which gives each call the fuel it needs. *)
Lemma browse_propagates w root ds p :
  descend w root ds = Some p ->
  exists down,
    List.length down = List.length ds
    /\ forall tr rest o st',
         Browse w p {| trace := tr ++ down; keys := rest |} = (o, st') ->
         o <> Ret "" ->
         Browse w root {| trace := tr; keys := ds ++ rest |} = (o, st').
Proof.
  intros Hd; destruct (descend_propagates w ds root p Hd) as (down & Hlen & Hprop).
  exists down; split; [assumption|].
  intros tr rest o st' Hrun Hne; unfold Browse, browse_fuel in *; cbn [keys] in *.
  rewrite length_app.
  replace (S (S (List.length ds + List.length rest)))
    with (List.length ds + S (S (List.length rest))) by lia.
  apply Hprop; [lia | assumption | assumption].
Qed.

(** X7.  What a nested call ends with is what the top-level call ends with,
    unless it is "": after [length ds] descents, a non-empty value, an
    out-of-bounds read or an endless wait in the call at the bottom is the
    outcome of browsing, in the same state, no enclosing level showing
    another menu. *)
Theorem nested_outcome_reaches_top w root ds p :
  descend w root ds = Some p ->
  exists down,
    List.length down = List.length ds
    /\ forall tr rest o st',
         Browse w p {| trace := tr ++ down; keys := rest |} = (o, st') ->
         o <> Ret "" ->
         Browse w root {| trace := tr; keys := ds ++ rest |} = (o, st').
Proof. apply browse_propagates. Qed.

Lemma nested_outcome_reaches_top_witness :
  exists down,
    List.length down = List.length [2%N]
    /\ forall tr rest o st',
         Browse browse_world "/sdcard/Sub" {| trace := tr ++ down; keys := rest |} = (o, st') ->
         o <> Ret "" ->
         Browse browse_world "/sdcard" {| trace := tr; keys := [2%N] ++ rest |} = (o, st').
Proof.
  apply (nested_outcome_reaches_top browse_world "/sdcard" [2%N] "/sdcard/Sub").
  reflexivity.
Defined.

(** ** One answer in one directory *)

Section OneAnswer.
Variable w : World.

Lemma not_slash (o : option ascii) (A : Type) (x y : A) :
  o <> Some "/"%char ->
  match o with Some "/"%char => x | _ => y end = y.
Proof.
  intros H; destruct o as [c|]; [|reflexivity].
  destruct (ascii_dec c "/"%char) as [->|Hc]; [congruence|].
  destruct c as [[] [] [] [] [] [] [] []]; try reflexivity; congruence.
Qed.

Lemma sentinel_false k :
  is_sentinel w k = false ->
  (k =? INTERRUPTED (consts w))%N = false
  /\ (k =? kGoHome (consts w))%N = false
  /\ ((k =? kGoBack (consts w))%N || (k =? 0)%N) = false.
Proof.
  unfold is_sentinel; intros Hs.
  apply orb_false_elim in Hs; destruct Hs as [Hs H0].
  apply orb_false_elim in Hs; destruct Hs as [Hs Hback].
  apply orb_false_elim in Hs; destruct Hs as [Hint Hhome].
  now rewrite Hint, Hhome, Hback, H0.
Qed.

Lemma on_answer_file browse again path entries k name st :
  is_sentinel w k = false ->
  nth_error entries (N.to_nat k) = Some name ->
  Str.back (path ++ "/" ++ name) <> Some "/"%char ->
  on_answer w browse again path entries k st = (Ret (path ++ "/" ++ name)%string, st).
Proof.
  intros Hs Hn Hb; apply sentinel_false in Hs; destruct Hs as (Hi & Hh & Hg).
  unfold on_answer; rewrite Hi, Hh, Hg, Hn, not_slash by assumption; reflexivity.
Qed.

Lemma on_answer_out_of_bounds browse again path entries k st :
  is_sentinel w k = false ->
  List.length entries <= N.to_nat k ->
  on_answer w browse again path entries k st = (Stop Undefined, st).
Proof.
  intros Hs Hn; apply sentinel_false in Hs; destruct Hs as (Hi & Hh & Hg).
  apply nth_error_None in Hn.
  unfold on_answer; rewrite Hi, Hh, Hg, Hn; reflexivity.
Qed.

Lemma on_answer_leaves browse again path entries k st :
  leaves_level w k = true ->
  on_answer w browse again path entries k st = (Ret "", st).
Proof.
  unfold leaves_level, on_answer; intros H.
  destruct (k =? INTERRUPTED (consts w))%N; [reflexivity|].
  destruct (k =? kGoHome (consts w))%N; [discriminate|].
  cbn in H; now rewrite H.
Qed.

Lemma package_back path name :
  Str.EndsWithIgnoreCase name ".zip" = true ->
  Str.back (path ++ "/" ++ name) <> Some "/"%char.
Proof.
  intros Hz; apply zip_name_back in Hz; destruct Hz as [Hb Hl].
  rewrite back_append by discriminate.
  change ("/" ++ name)%string with (String "/"%char name).
  rewrite back_cons; [assumption | destruct name; [cbn in Hl; lia | discriminate]].
Qed.

(** A package picked in the directory [dir]. *)
Lemma browse_package dir des k name tr rest :
  opendir w dir = Some des ->
  is_sentinel w k = false ->
  nth_error (menu_entries des) (N.to_nat k) = Some name ->
  Str.EndsWithIgnoreCase name ".zip" = true ->
  Browse w dir {| trace := tr; keys := k :: rest |}
  = (Ret (dir ++ "/" ++ name)%string,
     {| trace := tr ++ [EvShowMenu [title; dir] (menu_entries des) 0]; keys := rest |}).
Proof.
  intros Hopen Hs Hn Hz; unfold Browse, browse_fuel; cbn [keys List.length].
  rewrite BrowseDirectory_step, Hopen, menu_loop_step; cbn [keys].
  rewrite (on_answer_file _ _ _ _ _ name) by (auto using package_back).
  reflexivity.
Qed.

(** An answer beyond the end of the menu. *)
Lemma browse_out_of_bounds dir des k tr rest :
  opendir w dir = Some des ->
  is_sentinel w k = false ->
  List.length (menu_entries des) <= N.to_nat k ->
  Browse w dir {| trace := tr; keys := k :: rest |}
  = (Stop Undefined,
     {| trace := tr ++ [EvShowMenu [title; dir] (menu_entries des) 0]; keys := rest |}).
Proof.
  intros Hopen Hs Hn; unfold Browse, browse_fuel; cbn [keys List.length].
  rewrite BrowseDirectory_step, Hopen, menu_loop_step; cbn [keys].
  rewrite on_answer_out_of_bounds by assumption; reflexivity.
Qed.

(** A subdirectory that cannot be opened. *)
Lemma browse_unopenable dir des k item tr :
  opendir w dir = Some des ->
  is_sentinel w k = false ->
  nth_error (menu_entries des) (N.to_nat k) = Some item ->
  Str.back (dir ++ "/" ++ item) = Some "/"%char ->
  opendir w (Str.pop_back (dir ++ "/" ++ item)) = None ->
  Browse w dir {| trace := tr; keys := [k] |}
  = (Stop Blocked,
     {| trace := tr ++ [EvShowMenu [title; dir] (menu_entries des) 0;
                        EvShowMenu [title; dir] (menu_entries des) k];
        keys := [] |}).
Proof.
  intros Hopen Hs Hn Hb Hsub; unfold Browse, browse_fuel; cbn [keys List.length].
  rewrite BrowseDirectory_step, Hopen, menu_loop_step; cbn [keys].
  rewrite (on_answer_descends _ _ _ _ _ k item _ Hs Hn Hb).
  unfold bind; rewrite BrowseDirectory_step, Hsub; cbn [Str.empty negb].
  rewrite menu_loop_step; unfold shown; cbn [trace keys tl].
  rewrite <- app_assoc; reflexivity.
Qed.

(** Into a subdirectory and back. *)
Lemma browse_in_and_back dir des k sub des_sub back tr :
  opendir w dir = Some des ->
  descend w dir [k] = Some sub ->
  opendir w sub = Some des_sub ->
  leaves_level w back = true ->
  Browse w dir {| trace := tr; keys := [k; back] |}
  = (Stop Blocked,
     {| trace := tr ++ [EvShowMenu [title; dir] (menu_entries des) 0;
                        EvShowMenu [title; sub] (menu_entries des_sub) 0;
                        EvShowMenu [title; dir] (menu_entries des) k];
        keys := [] |}).
Proof.
  intros Hopen Hd Hsub Hback.
  apply descend_cons in Hd.
  destruct Hd as (des' & item & Hopen' & Hs & Hn & Hb & Hd).
  rewrite Hopen in Hopen'; injection Hopen' as <-.
  apply descend_nil in Hd; subst sub.
  unfold Browse, browse_fuel; cbn [keys List.length].
  rewrite BrowseDirectory_step, Hopen, menu_loop_step; cbn [keys].
  rewrite (on_answer_descends _ _ _ _ _ k item _ Hs Hn Hb).
  unfold bind; rewrite BrowseDirectory_step, Hsub, menu_loop_step.
  unfold shown; cbn [trace keys tl].
  rewrite on_answer_leaves by assumption.
  cbn [ret Str.empty negb]; rewrite menu_loop_step; cbn [keys].
  unfold shown; cbn [trace keys tl]; rewrite <- !app_assoc; reflexivity.
Qed.

End OneAnswer.

(** ** Every run of the parent process *)

Section ParentRuns.
Variable w : World.
Variable vi : VolumeInfo.

Let child := fork_ret w.
Let host := FUSE_SIDELOAD_HOST_PATHNAME (paths w).
Let exit_path := FUSE_SIDELOAD_HOST_EXIT_PATHNAME (paths w).

Lemma install_step_downgrade st :
  install_package w 0 (args_first w) = INSTALL_DOWNGRADE ->
  install_step w st
  = (Ret (if ask_to_continue_downgrade w then install_package w 1 (args_downgrade w)
          else INSTALL_DOWNGRADE),
     log st ([EvInstall (args_first w); EvAskDowngrade]
             ++ if ask_to_continue_downgrade w then [EvInstall (args_downgrade w)] else [])).
Proof.
  intros H0.
  unfold install_step, call_install, ask_unverified, ask_downgrade, bind, ret.
  rewrite ?emit_log; fold (args_first w) (args_downgrade w).
  rewrite H0; cbn [is_unverified is_downgrade fst snd]; rewrite emit_log.
  destruct (ask_to_continue_downgrade w); rewrite ?emit_log, !log_log; reflexivity.
Qed.

(** The install step, whatever the installer and the user answer. *)
Lemma install_step_shape :
  exists r evs,
    (forall s, install_step w s = (Ret r, log s evs))
    /\ forallb is_step_event evs = true
    /\ calls_ok w r (installs_of evs).
Proof.
  destruct (install_package w 0 (args_first w)) eqn:H0.
  1-3, 6:
    (do 2 eexists; split;
     [intros s; rewrite install_step_final by (rewrite H0; reflexivity); rewrite H0;
      reflexivity
     | split; [reflexivity | left; split; [reflexivity | now rewrite H0]]]).
  - destruct (ask_to_continue_unverified w) eqn:Hu.
    + destruct (install_package w 1 (args_unverified w)) eqn:H1.
      5:{ destruct (ask_to_continue_downgrade w) eqn:Hd.
          - do 2 eexists; split; [intros s; now apply install_step_third|].
            split; [reflexivity|]; right; right; right; repeat split; assumption.
          - do 2 eexists; split;
              [intros s; apply install_step_rerun;
               [assumption | assumption | now rewrite Hd, andb_false_r]|].
            rewrite installs_rerun_events; split.
            + unfold rerun_events; now destruct (is_downgrade _).
            + right; left; repeat split; assumption. }
      all: (do 2 eexists; split;
            [intros s; apply install_step_rerun;
             [assumption | assumption | now rewrite H1]|];
            rewrite installs_rerun_events; split;
            [unfold rerun_events; now rewrite H1
            | right; left; repeat split; assumption]).
    + do 2 eexists; split; [intros s; now apply install_step_declined|].
      split; [reflexivity | left; split; [reflexivity | now rewrite H0]].
  - do 2 eexists; split; [intros s; now apply install_step_downgrade|].
    destruct (ask_to_continue_downgrade w) eqn:Hd; (split; [reflexivity|]).
    + right; right; left; repeat split; assumption.
    + left; split; [reflexivity | now rewrite H0].
Qed.

(** The loop, entered with the iterations that are left: unsuccessful
    seconds, then one of the three last iterations. *)
Lemma poll_shape : forall n i st,
  i + n = SDCARD_INSTALL_TIMEOUT -> 0 < n ->
  exists j tail rw,
    j < n
    /\ poll_from w child n i st = (Ret rw, log st (rounds w child j ++ tail))
    /\ poll_end w child rw tail.
Proof.
  induction n as [|n IH]; intros i st Hi Hn; [lia|].
  destruct (waitpid_nohang w i =? -1)%Z eqn:Hw.
  { apply Z.eqb_eq in Hw.
    exists 0, [EvWaitpid child WNOHANG], (INSTALL_ERROR, true).
    split; [lia|]; split; [now apply poll_wait_fails | left; split; reflexivity]. }
  apply Z.eqb_neq in Hw.
  destruct (fst (stat_host w i) =? -1)%Z eqn:Hs.
  - apply Z.eqb_eq in Hs.
    destruct ((snd (stat_host w i) =? ENOENT)%Z && (i <? SDCARD_INSTALL_TIMEOUT - 1)%nat)
      eqn:Hgo.
    + assert (Hq : quiet w i = true).
      { unfold quiet; apply Z.eqb_neq in Hw; rewrite Hw, Hs, Z.eqb_refl; exact Hgo. }
      apply andb_prop in Hgo; destruct Hgo as [_ Hlt]; apply Nat.ltb_lt in Hlt.
      destruct (IH (S i) (log st (round w child))) as (j & tail & rw & Hj & Hrun & Hend);
        [lia | lia |].
      exists (S j), tail, rw; split; [lia|]; split; [|assumption].
      rewrite poll_quiet_step, Hrun, log_log by assumption.
      cbn [rounds]; now rewrite <- app_assoc.
    + exists 0, [EvWaitpid child WNOHANG; EvStat host; EvKill child SIGKILL],
        (INSTALL_ERROR, false).
      split; [lia|]; split; [now apply poll_gives_up | right; left; split; reflexivity].
  - apply Z.eqb_neq in Hs.
    destruct install_step_shape as (r & evs & Hstep & Hev & Hcalls).
    exists 0, ([EvWaitpid child WNOHANG; EvStat host] ++ evs), (r, false).
    split; [lia|]; split.
    + rewrite poll_installs by assumption.
      unfold bind; rewrite Hstep, log_log; reflexivity.
    + right; right; exists evs; repeat split; assumption.
Qed.

(** Every run of the parent, once a package has been selected. *)
Lemma apply_parent_shape st path st2 :
  selects w vi st path st2 ->
  fork_ret w <> 0%Z ->
  exists j tail rw,
    j < SDCARD_INSTALL_TIMEOUT
    /\ ApplyFromStorage w vi st
       = (Ret (fst rw),
          log st2 (announce path ++ rounds w child j ++ tail ++ teardown w vi (snd rw)))
    /\ poll_end w child rw tail.
Proof.
  intros Hsel Hf.
  destruct (poll_shape SDCARD_INSTALL_TIMEOUT 0 (log st2 (announce path)))
    as (j & tail & rw & Hj & Hrun & Hend); [reflexivity | unfold SDCARD_INSTALL_TIMEOUT; lia|].
  exists j, tail, rw; split; [assumption|]; split; [|assumption].
  rewrite (apply_selected _ _ _ _ _ Hsel).
  rewrite (install_selected_parent w vi path st2 _ _ Hf Hrun), !log_log, <- !app_assoc.
  reflexivity.
Qed.

Lemma step_events_filter (p : Event -> bool) evs :
  (forall e, is_step_event e = true -> p e = false) ->
  forallb is_step_event evs = true ->
  filter p evs = [].
Proof.
  intros Hp; induction evs as [|e evs IH]; [reflexivity|]; cbn [forallb filter].
  intros H; apply andb_prop in H; destruct H as [He Hevs].
  rewrite (Hp e He); auto.
Qed.

Lemma filter_rounds_sleep j : filter is_sleep (rounds w child j) = repeat (EvSleep 1) j.
Proof. induction j as [|j IH]; [reflexivity | cbn; now rewrite <- IH]. Qed.

Lemma count_rounds_nohang j : count is_nohang_wait (rounds w child j) = j.
Proof.
  induction j as [|j IH]; [reflexivity|].
  cbn [rounds]; rewrite count_app, IH; reflexivity.
Qed.

End ParentRuns.

Section ParentCounts.
Variable w : World.
Variable vi : VolumeInfo.

Lemma count_filter (p : Event -> bool) evs : filter p evs = [] -> count p evs = 0.
Proof. unfold count; now intros ->. Qed.

Lemma installs_teardown b : installs_of (teardown w vi b) = [].
Proof. now destruct b. Qed.

Lemma filter_kill_teardown b : filter is_kill (teardown w vi b) = [].
Proof. now destruct b. Qed.

Lemma filter_sleep_teardown b : filter is_sleep (teardown w vi b) = [].
Proof. now destruct b. Qed.

Lemma count_nohang_teardown b : count is_nohang_wait (teardown w vi b) = 0.
Proof. now destruct b. Qed.

End ParentCounts.

(** X8.  In the parent, after a package has been selected, whenever
    ApplyFromStorage returns: either the installer was not called and the
    result is INSTALL_ERROR, or the child was not killed and the installer
    was called one to three times: first with verification; without
    verification only after INSTALL_UNVERIFIED and the user's consent; with
    downgrade allowed only after INSTALL_DOWNGRADE and the user's consent.
    The result is the outcome of the last call. *)
Theorem installer_calls_need_consent w vi st path st2 r st' :
  selects w vi st path st2 ->
  fork_ret w <> 0%Z ->
  ApplyFromStorage w vi st = (Ret r, st') ->
  exists evs,
    st' = log st2 (announce path ++ evs)
    /\ ((installs_of evs = [] /\ r = INSTALL_ERROR /\ count is_kill evs <= 1)
        \/ (calls_ok w r (installs_of evs) /\ count is_kill evs = 0)).
Proof.
  intros Hsel Hf Hret.
  destruct (apply_parent_shape w vi st path st2 Hsel Hf) as (j & tail & rw & _ & Hrun & Hend).
  rewrite Hrun in Hret; injection Hret as <- <-.
  exists (rounds w (fork_ret w) j ++ tail ++ teardown w vi (snd rw)).
  split; [reflexivity|].
  rewrite !installs_of_app, !count_app, installs_rounds, count_rounds_kill,
    installs_teardown, (count_filter _ _ (filter_kill_teardown w vi (snd rw))).
  destruct Hend as [[-> ->] | [[-> ->] | (evs & -> & _ & Hev & Hcalls)]].
  - left; cbn; repeat split; lia.
  - left; cbn; repeat split; lia.
  - right; rewrite installs_of_app, count_app.
    rewrite (count_filter is_kill evs)
      by (apply step_events_filter; [now intros [] | assumption]).
    cbn [installs_of app]; rewrite app_nil_r; split; [assumption | reflexivity].
Qed.

Lemma installer_calls_need_consent_witness :
  exists evs,
    snd (ApplyFromStorage unverified_downgrade_world Scenario.vi (Scenario.start [1%N]))
    = log Scenario.chosen (announce "/sdcard/a.zip" ++ evs)
    /\ ((installs_of evs = [] /\ INSTALL_SUCCESS = INSTALL_ERROR /\ count is_kill evs <= 1)
        \/ (calls_ok unverified_downgrade_world INSTALL_SUCCESS (installs_of evs)
            /\ count is_kill evs = 0)).
Proof.
  apply (installer_calls_need_consent unverified_downgrade_world Scenario.vi
           (Scenario.start [1%N]) "/sdcard/a.zip" Scenario.chosen INSTALL_SUCCESS
           (snd (ApplyFromStorage unverified_downgrade_world Scenario.vi
                                  (Scenario.start [1%N])))).
  - pick_a_zip.
  - discriminate.
  - reflexivity.
Defined.

(** X9.  The polling for the fuse host is bounded: in the parent, after a
    package has been selected, whenever ApplyFromStorage returns it has
    slept [k] times one second with [k] at most 9, has made [k + 1]
    non-blocking waits, and its last call is the unmount of the volume. *)
Theorem polling_is_bounded w vi st path st2 r st' :
  selects w vi st path st2 ->
  fork_ret w <> 0%Z ->
  ApplyFromStorage w vi st = (Ret r, st') ->
  exists evs k,
    st' = log st2 (announce path ++ evs)
    /\ k < SDCARD_INSTALL_TIMEOUT
    /\ filter is_sleep evs = repeat (EvSleep 1) k
    /\ count is_nohang_wait evs = S k
    /\ exists pre, evs = pre ++ [EvVolumeUnmount (mId vi)].
Proof.
  intros Hsel Hf Hret.
  destruct (apply_parent_shape w vi st path st2 Hsel Hf) as (j & tail & rw & Hj & Hrun & Hend).
  rewrite Hrun in Hret; injection Hret as _ <-.
  exists (rounds w (fork_ret w) j ++ tail ++ teardown w vi (snd rw)), j.
  split; [reflexivity|]; split; [exact Hj|].
  rewrite !filter_app, !count_app, filter_rounds_sleep, count_rounds_nohang,
    filter_sleep_teardown, count_nohang_teardown.
  assert (Htail : filter is_sleep tail = [] /\ count is_nohang_wait tail = 1).
  { destruct Hend as [[-> _] | [[-> _] | (evs & -> & _ & Hev & _)]]; try (split; reflexivity).
    rewrite filter_app, count_app.
    rewrite (step_events_filter is_sleep evs), (count_filter is_nohang_wait evs);
      try (apply step_events_filter); try assumption; try (now intros []).
    split; reflexivity. }
  destruct Htail as [-> ->]; rewrite !app_nil_r; repeat split; [lia|].
  exists (rounds w (fork_ret w) j ++ tail
          ++ (if snd rw then []
              else [EvStat (FUSE_SIDELOAD_HOST_EXIT_PATHNAME (paths w));
                    EvWaitpid (fork_ret w) 0])).
  unfold teardown; now rewrite <- !app_assoc.
Qed.

Lemma polling_is_bounded_witness :
  exists evs k,
    snd (ApplyFromStorage downgrade_world Scenario.vi (Scenario.start [1%N]))
    = log Scenario.chosen (announce "/sdcard/a.zip" ++ evs)
    /\ k < SDCARD_INSTALL_TIMEOUT
    /\ filter is_sleep evs = repeat (EvSleep 1) k
    /\ count is_nohang_wait evs = S k
    /\ exists pre, evs = pre ++ [EvVolumeUnmount (mId Scenario.vi)].
Proof.
  apply (polling_is_bounded downgrade_world Scenario.vi (Scenario.start [1%N])
           "/sdcard/a.zip" Scenario.chosen INSTALL_SUCCESS
           (snd (ApplyFromStorage downgrade_world Scenario.vi (Scenario.start [1%N])))).
  - pick_a_zip.
  - discriminate.
  - reflexivity.
Defined.

(** X10.  The fuse host is told to exit and is waited for, unless a
    non-blocking wait has failed: in the parent, after a package has been
    selected, the calls of ApplyFromStorage end either with the failed
    non-blocking wait and the unmount, no blocking wait having been made and
    the result being INSTALL_ERROR, or with the [stat] of the exit path, the
    one blocking wait on the child, and the unmount. *)
Theorem host_is_reaped_unless_wait_failed w vi st path st2 :
  selects w vi st path st2 ->
  fork_ret w <> 0%Z ->
  exists r evs pre,
    ApplyFromStorage w vi st = (Ret r, log st2 (announce path ++ evs))
    /\ count is_blocking_wait pre = 0
    /\ ((evs = pre ++ [EvWaitpid (fork_ret w) WNOHANG; EvVolumeUnmount (mId vi)]
         /\ r = INSTALL_ERROR)
        \/ evs = pre ++ [EvStat (FUSE_SIDELOAD_HOST_EXIT_PATHNAME (paths w));
                         EvWaitpid (fork_ret w) 0; EvVolumeUnmount (mId vi)]).
Proof.
  intros Hsel Hf.
  destruct (apply_parent_shape w vi st path st2 Hsel Hf) as (j & tail & rw & _ & Hrun & Hend).
  exists (fst rw), (rounds w (fork_ret w) j ++ tail ++ teardown w vi (snd rw)).
  destruct Hend as [[-> ->] | [[-> ->] | (evs & -> & Hw & Hev & _)]].
  - exists (rounds w (fork_ret w) j); split; [exact Hrun|].
    split; [apply count_rounds_blocking | left; split; reflexivity].
  - exists (rounds w (fork_ret w) j
            ++ [EvWaitpid (fork_ret w) WNOHANG; EvStat (FUSE_SIDELOAD_HOST_PATHNAME (paths w));
                EvKill (fork_ret w) SIGKILL]).
    split; [exact Hrun|]; split.
    + rewrite count_app, count_rounds_blocking; reflexivity.
    + right; cbn [snd teardown]; unfold teardown; now rewrite <- !app_assoc.
  - exists (rounds w (fork_ret w) j
            ++ [EvWaitpid (fork_ret w) WNOHANG; EvStat (FUSE_SIDELOAD_HOST_PATHNAME (paths w))]
            ++ evs).
    split; [exact Hrun|]; split.
    + rewrite !count_app, count_rounds_blocking.
      rewrite (count_filter is_blocking_wait evs)
        by (apply step_events_filter; [now intros [] | assumption]).
      reflexivity.
    + right; rewrite Hw; unfold teardown; now rewrite <- !app_assoc.
Qed.

Lemma host_is_reaped_unless_wait_failed_witness :
  exists r evs pre,
    ApplyFromStorage downgrade_world Scenario.vi (Scenario.start [1%N])
    = (Ret r, log Scenario.chosen (announce "/sdcard/a.zip" ++ evs))
    /\ count is_blocking_wait pre = 0
    /\ ((evs = pre ++ [EvWaitpid (fork_ret downgrade_world) WNOHANG;
                       EvVolumeUnmount (mId Scenario.vi)]
         /\ r = INSTALL_ERROR)
        \/ evs = pre ++ [EvStat (FUSE_SIDELOAD_HOST_EXIT_PATHNAME (paths downgrade_world));
                         EvWaitpid (fork_ret downgrade_world) 0;
                         EvVolumeUnmount (mId Scenario.vi)]).
Proof.
  apply (host_is_reaped_unless_wait_failed downgrade_world Scenario.vi
           (Scenario.start [1%N]) "/sdcard/a.zip" Scenario.chosen).
  - pick_a_zip.
  - discriminate.
Defined.

(** ** The downgrade *)

(** X11.  The ready path is there at iteration [k] and the first installer
    call returns INSTALL_DOWNGRADE.  The user is asked about the downgrade
    only; on consent the installer is called a second time, with downgrade
    allowed and with verification off, and that outcome is the result; on
    refusal INSTALL_DOWNGRADE is the result and the installer is not called
    again. *)
Theorem downgrade_rerun w vi st path st2 k :
  selects w vi st path st2 ->
  fork_ret w <> 0%Z ->
  ready_at w k = true ->
  install_package w 0 (args_first w) = INSTALL_DOWNGRADE ->
  exists r evs,
    ApplyFromStorage w vi st = (Ret r, log st2 (announce path ++ evs))
    /\ (if ask_to_continue_downgrade w
        then installs_of evs = [args_first w; args_downgrade w]
             /\ r = install_package w 1 (args_downgrade w)
        else installs_of evs = [args_first w] /\ r = INSTALL_DOWNGRADE)
    /\ count is_ask_unverified evs = 0
    /\ verify (args_downgrade w) = false
    /\ allow_ab_downgrade (args_downgrade w) = true.
Proof.
  intros Hsel Hf Hr H0; do 2 eexists; split.
  - apply (apply_ready w vi st path st2 k
             (if ask_to_continue_downgrade w then install_package w 1 (args_downgrade w)
              else INSTALL_DOWNGRADE)
             ([EvInstall (args_first w); EvAskDowngrade]
              ++ if ask_to_continue_downgrade w then [EvInstall (args_downgrade w)] else [])
             Hsel Hf Hr).
    intros s; now apply install_step_downgrade.
  - rewrite !installs_of_app, !count_app, installs_rounds.
    assert (Hc : count is_ask_unverified (rounds w (fork_ret w) k) = 0)
      by (clear; induction k as [|j IH]; [reflexivity | exact IH]).
    rewrite Hc.
    destruct (ask_to_continue_downgrade w); repeat split.
Qed.

Lemma downgrade_rerun_witness :
  exists r evs,
    ApplyFromStorage downgrade_world Scenario.vi (Scenario.start [1%N])
    = (Ret r, log Scenario.chosen (announce "/sdcard/a.zip" ++ evs))
    /\ (installs_of evs = [args_first downgrade_world; args_downgrade downgrade_world]
        /\ r = install_package downgrade_world 1 (args_downgrade downgrade_world))
    /\ count is_ask_unverified evs = 0
    /\ verify (args_downgrade downgrade_world) = false
    /\ allow_ab_downgrade (args_downgrade downgrade_world) = true.
Proof.
  apply (downgrade_rerun downgrade_world Scenario.vi (Scenario.start [1%N])
           "/sdcard/a.zip" Scenario.chosen 2).
  - pick_a_zip.
  - discriminate.
  - reflexivity.
  - reflexivity.
Defined.

(** ** The child process *)

(** X12.  In the child ([fork] has returned 0), ApplyFromStorage does not
    return: after the fork it runs the fuse host and exits, with
    EXIT_SUCCESS when the data provider is valid and the host returns 0,
    and with EXIT_FAILURE otherwise.  The child neither polls, installs nor
    unmounts. *)
Theorem child_runs_fuse_host w vi st path st2 :
  selects w vi st path st2 ->
  fork_ret w = 0%Z ->
  ApplyFromStorage w vi st
  = (Stop (Exited (if provider_valid w && (run_fuse_sideload_rc w =? 0)%Z
                   then EXIT_SUCCESS else EXIT_FAILURE)),
     log st2 (announce path)).
Proof.
  intros Hsel Hf.
  rewrite (apply_selected _ _ _ _ _ Hsel).
  unfold install_selected, bind; rewrite !emit_log, !log_log, Hf.
  cbn [Z.eqb app]; unfold halt, StartSdcardFuse, announce.
  destruct (provider_valid w); reflexivity.
Qed.

Lemma child_runs_fuse_host_witness :
  ApplyFromStorage child_world Scenario.vi (Scenario.start [1%N])
  = (Stop (Exited EXIT_SUCCESS), log Scenario.chosen (announce "/sdcard/a.zip")).
Proof.
  apply (child_runs_fuse_host child_world Scenario.vi (Scenario.start [1%N])
           "/sdcard/a.zip" Scenario.chosen).
  - pick_a_zip.
  - reflexivity.
Defined.

(** ** The mount step and what follows when nothing is selected *)

Section Mounting.
Variable w : World.
Variable vi : VolumeInfo.

(** The mount step makes at most one call, and [mountable] is its
    outcome. *)
Lemma mount_storage_mountable st :
  exists evs,
    mount_storage w vi st = (Ret (mountable w vi), log st evs)
    /\ List.length evs <= 1
    /\ forallb is_mount_attempt evs = true.
Proof.
  unfold mount_storage, mountable.
  destruct (is_ufs_dev w =? 0)%Z; cbn [negb].
  { unfold bind, ret; rewrite emit_log; eexists; repeat split; cbn; lia. }
  unfold bind.
  destruct (volume_for_mount_point w "/sdcard") as [v|] eqn:Hv.
  2:{ unfold do_sdcard_mount_for_ufs; rewrite Hv.
      exists []; rewrite log_nil; repeat split; cbn; lia. }
  destruct (Str.c_str (fs_type v) =? "vfat")%string eqn:Hfs.
  - apply String.eqb_eq in Hfs.
    rewrite (do_sdcard_mount_vfat w v st Hv Hfs); cbn [andb].
    eexists; split; [destruct (mount_rc w =? 0)%Z; reflexivity|].
    split; [cbn; lia | reflexivity].
  - apply String.eqb_neq in Hfs.
    rewrite (do_sdcard_mount_unsupported w v st Hv Hfs).
    exists []; rewrite log_nil; repeat split; cbn; lia.
Qed.

End Mounting.

(** X13.  When the storage cannot be mounted (the volume manager refuses, or,
    on a UFS device, the fstab has no volume for /sdcard, or its type is not
    "vfat", or [mount] fails), ApplyFromStorage returns INSTALL_ERROR after
    at most one call, the mount attempt: no menu is shown, nothing is forked
    and nothing is unmounted. *)
Theorem unmountable_storage_is_error w vi st :
  mountable w vi = false ->
  exists evs,
    ApplyFromStorage w vi st = (Ret INSTALL_ERROR, log st evs)
    /\ List.length evs <= 1
    /\ forallb is_mount_attempt evs = true.
Proof.
  intros Hm; destruct (mount_storage_mountable w vi st) as (evs & Hrun & Hlen & Hev).
  exists evs; split; [|split; assumption].
  unfold ApplyFromStorage, bind; rewrite Hrun, Hm; reflexivity.
Qed.

Lemma unmountable_storage_is_error_witness :
  exists evs,
    ApplyFromStorage unmountable_world Scenario.vi (Scenario.start [1%N])
    = (Ret INSTALL_ERROR, log (Scenario.start [1%N]) evs)
    /\ List.length evs <= 1
    /\ forallb is_mount_attempt evs = true.
Proof.
  apply (unmountable_storage_is_error unmountable_world Scenario.vi (Scenario.start [1%N])).
  reflexivity.
Defined.

(** X14.  When the storage is mounted but its root directory cannot be
    opened, ApplyFromStorage shows no menu: it unmounts the volume and
    returns INSTALL_NONE. *)
Theorem unreadable_root_is_unmounted w vi st :
  mountable w vi = true ->
  opendir w (mPath vi) = None ->
  exists evs,
    ApplyFromStorage w vi st
    = (Ret INSTALL_NONE, log st (evs ++ [EvVolumeUnmount (mId vi)]))
    /\ forallb is_mount_attempt evs = true.
Proof.
  intros Hm Hopen; destruct (mount_storage_mountable w vi st) as (evs & Hrun & _ & Hev).
  exists evs; split; [|assumption].
  unfold ApplyFromStorage, bind; rewrite Hrun, Hm; cbn [negb].
  unfold Browse, browse_fuel; rewrite BrowseDirectory_step, Hopen.
  cbn [String.eqb Str.empty]; unfold ret; rewrite emit_log, log_log; reflexivity.
Qed.

Lemma unreadable_root_is_unmounted_witness :
  exists evs,
    ApplyFromStorage unreadable_world Scenario.vi (Scenario.start [1%N])
    = (Ret INSTALL_NONE, log (Scenario.start [1%N]) (evs ++ [EvVolumeUnmount (mId Scenario.vi)]))
    /\ forallb is_mount_attempt evs = true.
Proof.
  apply (unreadable_root_is_unmounted unreadable_world Scenario.vi (Scenario.start [1%N])).
  - reflexivity.
  - reflexivity.
Defined.

(** X15.  Leaving the first menu cancels the installation: when the answer
    at the top-level menu is the interrupt, go-back, or the first entry of
    the menu, ApplyFromStorage unmounts the volume and returns INSTALL_NONE;
    nothing is printed, the bootloader message is not written and nothing is
    forked. *)
Theorem leaving_top_menu_cancels w vi st des k rest :
  mountable w vi = true ->
  opendir w (mPath vi) = Some des ->
  keys st = k :: rest ->
  leaves_level w k = true ->
  exists evs,
    ApplyFromStorage w vi st
    = (Ret INSTALL_NONE,
       {| trace := trace st ++ evs
                   ++ [EvShowMenu [title; mPath vi] (menu_entries des) 0;
                       EvVolumeUnmount (mId vi)];
          keys := rest |})
    /\ forallb is_mount_attempt evs = true.
Proof.
  intros Hm Hopen Hk Hleave.
  destruct (mount_storage_mountable w vi st) as (evs & Hrun & _ & Hev).
  exists evs; split; [|assumption].
  unfold ApplyFromStorage, bind; rewrite Hrun, Hm; cbn [negb].
  unfold Browse, browse_fuel, log; cbn [keys]; rewrite Hk; cbn [List.length].
  rewrite BrowseDirectory_step, Hopen, menu_loop_step; cbn [keys].
  rewrite on_answer_leaves by assumption.
  cbn [ret String.eqb Str.empty]; unfold shown, ret, emit; cbn [trace keys tl].
  rewrite <- !app_assoc; reflexivity.
Qed.

Lemma leaving_top_menu_cancels_witness :
  exists evs,
    ApplyFromStorage browse_world Scenario.vi
                     (Scenario.start [kGoBack Scenario.menu_consts; 1%N])
    = (Ret INSTALL_NONE,
       {| trace := trace (Scenario.start [kGoBack Scenario.menu_consts; 1%N]) ++ evs
                   ++ [EvShowMenu [title; mPath Scenario.vi]
                                  (menu_entries [Scenario.dir "."; Scenario.dir "..";
                                                 Scenario.dir "Sub"; Scenario.file "a.zip"]) 0;
                       EvVolumeUnmount (mId Scenario.vi)];
          keys := [1%N] |})
    /\ forallb is_mount_attempt evs = true.
Proof.
  apply (leaving_top_menu_cancels browse_world Scenario.vi
           (Scenario.start [kGoBack Scenario.menu_consts; 1%N])
           [Scenario.dir "."; Scenario.dir ".."; Scenario.dir "Sub"; Scenario.file "a.zip"]
           (kGoBack Scenario.menu_consts) [1%N]).
  - reflexivity.
  - reflexivity.
  - reflexivity.
  - reflexivity.
Defined.

(** ** Answers below the top *)

Lemma path_not_empty (p name : string) : (p ++ "/" ++ name)%string <> "".
Proof. destruct p; discriminate. Qed.

(** X16.  Picking a package at any depth: after [length ds] descents into the
    directory [p], the answer [k] that points at the package [name] of its
    menu ends the browsing with the path [p/name], at every level, and the
    only menu shown after the descent is the one of [p]. *)
Theorem package_is_returned_from_any_depth w root ds p des k name tr rest :
  descend w root ds = Some p ->
  opendir w p = Some des ->
  is_sentinel w k = false ->
  nth_error (menu_entries des) (N.to_nat k) = Some name ->
  Str.EndsWithIgnoreCase name ".zip" = true ->
  exists down,
    List.length down = List.length ds
    /\ Browse w root {| trace := tr; keys := ds ++ k :: rest |}
       = (Ret (p ++ "/" ++ name)%string,
          {| trace := (tr ++ down) ++ [EvShowMenu [title; p] (menu_entries des) 0];
             keys := rest |}).
Proof.
  intros Hd Hopen Hs Hn Hz.
  destruct (browse_propagates w root ds p Hd) as (down & Hlen & Hprop).
  exists down; split; [assumption|].
  apply Hprop; [now apply browse_package | intros [= H]; now apply path_not_empty in H].
Qed.

Lemma package_is_returned_from_any_depth_witness :
  exists down,
    List.length down = List.length [2%N]
    /\ Browse nested_world "/sdcard" {| trace := []; keys := [2%N] ++ 1%N :: [] |}
       = (Ret ("/sdcard/Sub" ++ "/" ++ "b.zip")%string,
          {| trace := ([] ++ down)
                      ++ [EvShowMenu [title; "/sdcard/Sub"] (menu_entries sub_directory) 0];
             keys := [] |}).
Proof.
  apply (package_is_returned_from_any_depth nested_world "/sdcard" [2%N] "/sdcard/Sub"
           sub_directory 1%N "b.zip" [] []).
  - reflexivity.
  - reflexivity.
  - reflexivity.
  - reflexivity.
  - reflexivity.
Defined.

(** X17.  Going back: in the directory [p], at any depth, the answer [c]
    enters the subdirectory [q]; an answer there that is the interrupt,
    go-back or the first entry returns to [p], whose menu is shown again with
    the selection on [c], the entry that was entered.  With no further
    answer the browser waits there. *)
Theorem going_back_shows_parent_menu w root ds p des c q des_q back tr :
  descend w root ds = Some p ->
  opendir w p = Some des ->
  descend w p [c] = Some q ->
  opendir w q = Some des_q ->
  leaves_level w back = true ->
  exists down,
    List.length down = List.length ds
    /\ Browse w root {| trace := tr; keys := ds ++ [c; back] |}
       = (Stop Blocked,
          {| trace := (tr ++ down)
                      ++ [EvShowMenu [title; p] (menu_entries des) 0;
                          EvShowMenu [title; q] (menu_entries des_q) 0;
                          EvShowMenu [title; p] (menu_entries des) c];
             keys := [] |}).
Proof.
  intros Hd Hopen Hc Hq Hback.
  destruct (browse_propagates w root ds p Hd) as (down & Hlen & Hprop).
  exists down; split; [assumption|].
  apply Hprop; [now apply browse_in_and_back | discriminate].
Qed.

Lemma going_back_shows_parent_menu_witness :
  exists down,
    List.length down = List.length [2%N]
    /\ Browse nested_world "/sdcard"
              {| trace := []; keys := [2%N] ++ [2%N; kGoBack Scenario.menu_consts] |}
       = (Stop Blocked,
          {| trace := ([] ++ down)
                      ++ [EvShowMenu [title; "/sdcard/Sub"] (menu_entries sub_directory) 0;
                          EvShowMenu [title; "/sdcard/Sub/Deep"]
                                     (menu_entries [Scenario.dir "."; Scenario.dir ".."]) 0;
                          EvShowMenu [title; "/sdcard/Sub"] (menu_entries sub_directory) 2];
             keys := [] |}).
Proof.
  apply (going_back_shows_parent_menu nested_world "/sdcard" [2%N] "/sdcard/Sub"
           sub_directory 2%N "/sdcard/Sub/Deep" [Scenario.dir "."; Scenario.dir ".."]
           (kGoBack Scenario.menu_consts) []).
  - reflexivity.
  - reflexivity.
  - reflexivity.
  - reflexivity.
  - reflexivity.
Defined.

(** X18.  A subdirectory that cannot be opened: the answer [k] points at the
    directory entry [item] of the menu of [p], and [opendir] fails on it.
    The nested call returns "" at once, without a menu, and the menu of [p]
    is shown again with the selection on [k]: the failure looks like going
    back. *)
Theorem unopenable_subdirectory_shows_menu_again w root ds p des k item tr :
  descend w root ds = Some p ->
  opendir w p = Some des ->
  is_sentinel w k = false ->
  nth_error (menu_entries des) (N.to_nat k) = Some item ->
  Str.back (p ++ "/" ++ item) = Some "/"%char ->
  opendir w (Str.pop_back (p ++ "/" ++ item)) = None ->
  exists down,
    List.length down = List.length ds
    /\ Browse w root {| trace := tr; keys := ds ++ [k] |}
       = (Stop Blocked,
          {| trace := (tr ++ down)
                      ++ [EvShowMenu [title; p] (menu_entries des) 0;
                          EvShowMenu [title; p] (menu_entries des) k];
             keys := [] |}).
Proof.
  intros Hd Hopen Hs Hn Hb Hsub.
  destruct (browse_propagates w root ds p Hd) as (down & Hlen & Hprop).
  exists down; split; [assumption|].
  apply Hprop; [now apply (browse_unopenable w p des k item) | discriminate].
Qed.

Lemma unopenable_subdirectory_shows_menu_again_witness :
  exists down,
    List.length down = List.length [2%N]
    /\ Browse nested_world "/sdcard" {| trace := []; keys := [2%N] ++ [3%N] |}
       = (Stop Blocked,
          {| trace := ([] ++ down)
                      ++ [EvShowMenu [title; "/sdcard/Sub"] (menu_entries sub_directory) 0;
                          EvShowMenu [title; "/sdcard/Sub"] (menu_entries sub_directory) 3];
             keys := [] |}).
Proof.
  apply (unopenable_subdirectory_shows_menu_again nested_world "/sdcard" [2%N] "/sdcard/Sub"
           sub_directory 3%N "Gone/" []).
  - reflexivity.
  - reflexivity.
  - reflexivity.
  - reflexivity.
  - reflexivity.
  - reflexivity.
Defined.

(** X19.  The answer of the menu is not checked against the size of the
    menu: an answer [k] that is none of the constants and is not below the
    number of entries makes BrowseDirectory read [entries[k]] out of
    bounds. *)
Theorem answer_beyond_menu_is_read w root ds p des k tr rest :
  descend w root ds = Some p ->
  opendir w p = Some des ->
  is_sentinel w k = false ->
  List.length (menu_entries des) <= N.to_nat k ->
  exists down,
    List.length down = List.length ds
    /\ Browse w root {| trace := tr; keys := ds ++ k :: rest |}
       = (Stop Undefined,
          {| trace := (tr ++ down) ++ [EvShowMenu [title; p] (menu_entries des) 0];
             keys := rest |}).
Proof.
  intros Hd Hopen Hs Hn.
  destruct (browse_propagates w root ds p Hd) as (down & Hlen & Hprop).
  exists down; split; [assumption|].
  apply Hprop; [now apply browse_out_of_bounds | discriminate].
Qed.

Lemma answer_beyond_menu_is_read_witness :
  exists down,
    List.length down = List.length [2%N]
    /\ Browse nested_world "/sdcard" {| trace := []; keys := [2%N] ++ 4%N :: [1%N] |}
       = (Stop Undefined,
          {| trace := ([] ++ down)
                      ++ [EvShowMenu [title; "/sdcard/Sub"] (menu_entries sub_directory) 0];
             keys := [1%N] |}).
Proof.
  apply (answer_beyond_menu_is_read nested_world "/sdcard" [2%N] "/sdcard/Sub"
           sub_directory 4%N [] [1%N]).
  - reflexivity.
  - reflexivity.
  - reflexivity.
  - vm_compute; lia.
Defined.

(** ** What the menu lists *)

(** X20.  The menu lists the go-up entry, every regular file whose name ends
    in ".zip" whatever the case, and every directory other than "." and "..",
    its name followed by a slash, and nothing else: entries of any other
    type, symbolic links included, are left out.  Names that [readdir]
    reports twice are listed twice. *)
Theorem menu_lists_packages_and_directories des :
  (forall item,
     In item (menu_entries des) <->
     item = "../"
     \/ (exists de, In de des /\ d_type de = DT_REG
                    /\ Str.EndsWithIgnoreCase (d_name de) ".zip" = true
                    /\ item = d_name de)
     \/ (exists de, In de des /\ d_type de = DT_DIR
                    /\ d_name de <> "." /\ d_name de <> ".."
                    /\ item = (d_name de ++ "/")%string))
  /\ List.length (menu_entries des)
     = 1 + List.length (filter is_package des) + List.length (filter is_subdir des).
Proof.
  split.
  - intros item; rewrite menu_entries_spec, in_app_iff, !std_sort_In.
    unfold packages, subdirs; cbn [In]; rewrite !in_map_iff.
    split.
    + intros [[<- | (de & <- & Hde)] | (de & <- & Hde)].
      * now left.
      * right; left; apply filter_In in Hde; destruct Hde as [Hin Hp].
        unfold is_package in Hp; exists de.
        destruct (d_type de) eqn:Ht; try discriminate; auto.
      * right; right; apply filter_In in Hde; destruct Hde as [Hin Hp].
        unfold is_subdir in Hp; exists de.
        destruct (d_type de) eqn:Ht; try discriminate.
        apply negb_true_iff, orb_false_elim in Hp; destruct Hp as [H1 H2].
        apply String.eqb_neq in H1, H2; auto.
    + intros [-> | [(de & Hin & Ht & Hz & ->) | (de & Hin & Ht & H1 & H2 & ->)]].
      * left; now left.
      * left; right; exists de; split; [reflexivity|].
        apply filter_In; split; [assumption|]; unfold is_package; now rewrite Ht.
      * right; exists de; split; [reflexivity|].
        apply filter_In; split; [assumption|]; unfold is_subdir; rewrite Ht.
        apply String.eqb_neq in H1, H2; now rewrite H1, H2.
  - rewrite menu_entries_spec, length_app.
    rewrite (Permutation_length (std_sort_perm _)), (Permutation_length (std_sort_perm _)).
    unfold packages, subdirs; cbn [List.length]; rewrite !length_map; reflexivity.
Qed.

(** ** The go-up entry away from the top of the menu *)

Lemma pop_back_append (a b : string) :
  b <> EmptyString -> Str.pop_back (a ++ b) = (a ++ Str.pop_back b)%string.
Proof.
  intros Hb; induction a as [|x a IH]; [reflexivity|].
  cbn [append Str.pop_back]; rewrite IH.
  destruct (a ++ b)%string eqn:E; [|reflexivity].
  destruct a; [cbn in E; congruence | discriminate].
Qed.

(** X21.  When the go-up entry is not the first entry of the menu, choosing
    it does not return to the caller: BrowseDirectory takes it for the
    subdirectory "..", calls itself on [p/..] and, when that opens, shows the
    listing of the parent of [p], also when [p] is the directory the
    browsing started in. *)
Theorem displaced_go_up_entry_lists_parent w root ds p des k up tr :
  descend w root ds = Some p ->
  opendir w p = Some des ->
  is_sentinel w k = false ->
  nth_error (menu_entries des) (N.to_nat k) = Some "../" ->
  opendir w (p ++ "/..") = Some up ->
  exists down,
    List.length down = List.length ds
    /\ Browse w root {| trace := tr; keys := ds ++ [k] |}
       = (Stop Blocked,
          {| trace := (tr ++ down)
                      ++ [EvShowMenu [title; p] (menu_entries des) 0;
                          EvShowMenu [title; (p ++ "/..")%string] (menu_entries up) 0];
             keys := [] |}).
Proof.
  intros Hd Hopen Hs Hn Hup.
  destruct (browse_propagates w root ds p Hd) as (down & Hlen & Hprop).
  exists down; split; [assumption|].
  apply Hprop; [|discriminate].
  assert (Hb : Str.back (p ++ "/" ++ "../") = Some "/"%char)
    by (rewrite back_append by discriminate; reflexivity).
  assert (Hp : Str.pop_back (p ++ "/" ++ "../") = (p ++ "/..")%string)
    by (rewrite pop_back_append by discriminate; reflexivity).
  unfold Browse, browse_fuel; cbn [keys List.length].
  rewrite BrowseDirectory_step, Hopen, menu_loop_step; cbn [keys].
  rewrite (on_answer_descends _ _ _ _ _ k "../" _ Hs Hn Hb), Hp.
  unfold bind; rewrite BrowseDirectory_step, Hup, menu_loop_step.
  unfold shown; cbn [trace keys tl]; rewrite <- !app_assoc; reflexivity.
Qed.

Lemma displaced_go_up_entry_lists_parent_witness :
  exists down,
    List.length down = List.length (@nil N)
    /\ Browse escape_world "/sdcard" {| trace := []; keys := [] ++ [1%N] |}
       = (Stop Blocked,
          {| trace := ([] ++ down)
                      ++ [EvShowMenu [title; "/sdcard"] ["-a.zip"; "../"; "b.zip"; "Sub/"] 0;
                          EvShowMenu [title; "/sdcard/.."] ["../"; "data/"; "sdcard/"] 0];
             keys := [] |}).
Proof.
  apply (displaced_go_up_entry_lists_parent escape_world "/sdcard" [] "/sdcard"
           dash_directory 1%N
           [Scenario.dir "."; Scenario.dir ".."; Scenario.dir "sdcard"; Scenario.dir "data"]
           []).
  - reflexivity.
  - reflexivity.
  - reflexivity.
  - reflexivity.
  - reflexivity.
Defined.

(** ** The empty result *)

Section EmptyResult.
Variable w : World.

Lemma menu_loop_empty browse des :
  (forall p st o st', browse p st = (o, st') -> browse_post w p st o st') ->
  forall fuel path headers c st st',
    menu_loop w browse fuel path headers (menu_entries des) c st = (Ret "", st') ->
    exists used k pre c',
      keys st = used ++ k :: keys st'
      /\ leaves_level w k = true
      /\ trace st' = pre ++ [EvShowMenu headers (menu_entries des) c'].
Proof.
  intros Hb; induction fuel as [|fuel IH]; intros path headers c st st' Hrun;
    [discriminate|].
  rewrite menu_loop_step in Hrun.
  destruct (keys st) as [|k ks] eqn:Hk; [discriminate|].
  unfold on_answer, ret, halt in Hrun.
  assert (Hhere : leaves_level w k = true ->
                  st' = shown st headers (menu_entries des) c ->
                  exists used k0 pre c',
                    k :: ks = used ++ k0 :: keys st'
                    /\ leaves_level w k0 = true
                    /\ trace st' = pre ++ [EvShowMenu headers (menu_entries des) c']).
  { intros Hl ->; exists [], k, (trace st), c; cbn; rewrite Hk; auto. }
  unfold leaves_level in Hhere.
  destruct (k =? INTERRUPTED (consts w))%N.
  { injection Hrun as <-; now apply Hhere. }
  destruct (k =? kGoHome (consts w))%N; [discriminate|].
  destruct ((k =? kGoBack (consts w))%N || (k =? 0)%N).
  { injection Hrun as <-; now apply Hhere. }
  clear Hhere.
  destruct (nth_error (menu_entries des) (N.to_nat k)) as [item|]; [|discriminate].
  destruct (Str.back (path ++ "/" ++ item)) as [last|];
    [|injection Hrun as H _; now apply path_not_empty in H].
  destruct (ascii_dec last "/"%char) as [->|Hl].
  2:{ destruct last as [[] [] [] [] [] [] [] []];
        try (injection Hrun as H _; now apply path_not_empty in H).
      congruence. }
  unfold bind in Hrun.
  destruct (browse (Str.pop_back (path ++ "/" ++ item))
                   (shown st headers (menu_entries des) c)) as [o1 st1] eqn:Hsub.
  apply Hb in Hsub; destruct Hsub as (evs1 & used1 & _ & _ & Hk1 & _).
  cbn [shown keys] in Hk1; rewrite Hk in Hk1; cbn [tl] in Hk1.
  destruct o1 as [result|h]; [|discriminate].
  destruct (Str.empty result) eqn:Hres; cbn [negb] in Hrun.
  - apply IH in Hrun; destruct Hrun as (used2 & k2 & pre & c' & Hk2 & Hl2 & Ht2).
    exists (k :: used1 ++ used2), k2, pre, c'.
    rewrite Hk1, Hk2; cbn [app]; rewrite <- app_assoc; auto.
  - injection Hrun as -> _; discriminate.
Qed.

End EmptyResult.

(** X22.  BrowseDirectory returns the empty string in two cases only: the
    directory it was called on cannot be opened, and then it has shown no
    menu; or the last answer it read is the interrupt, go-back or the first
    entry, and the last menu it showed is the one of that directory. *)
Theorem empty_result_is_a_leave w path st st' :
  Browse w path st = (Ret "", st') ->
  (opendir w path = None /\ st' = st)
  \/ exists des used k pre c,
       opendir w path = Some des
       /\ keys st = used ++ k :: keys st'
       /\ leaves_level w k = true
       /\ trace st' = pre ++ [EvShowMenu [title; path] (menu_entries des) c].
Proof.
  unfold Browse, browse_fuel; rewrite BrowseDirectory_step.
  destruct (opendir w path) as [des|]; [|intros [= <-]; now left].
  intros Hrun; right.
  apply (menu_loop_empty w _ des (BrowseDirectory_post w _)) in Hrun.
  destruct Hrun as (used & k & pre & c & Hk & Hl & Ht).
  exists des, used, k, pre, c; auto.
Qed.

Lemma empty_result_is_a_leave_witness :
  (opendir browse_world "/sdcard" = None
   /\ {| trace := [EvShowMenu [title; "/sdcard"] ["../"; "a.zip"; "Sub/"] 0;
                   EvShowMenu [title; "/sdcard/Sub"] ["../"] 0;
                   EvShowMenu [title; "/sdcard"] ["../"; "a.zip"; "Sub/"] 2];
         keys := [1%N] |}
      = Scenario.start [2%N; kGoBack Scenario.menu_consts; 0%N; 1%N])
  \/ exists des used k pre c,
       opendir browse_world "/sdcard" = Some des
       /\ keys (Scenario.start [2%N; kGoBack Scenario.menu_consts; 0%N; 1%N])
          = used ++ k :: [1%N]
       /\ leaves_level browse_world k = true
       /\ [EvShowMenu [title; "/sdcard"] ["../"; "a.zip"; "Sub/"] 0;
           EvShowMenu [title; "/sdcard/Sub"] ["../"] 0;
           EvShowMenu [title; "/sdcard"] ["../"; "a.zip"; "Sub/"] 2]
          = pre ++ [EvShowMenu [title; "/sdcard"] (menu_entries des) c].
Proof.
  apply (empty_result_is_a_leave browse_world "/sdcard"
           (Scenario.start [2%N; kGoBack Scenario.menu_consts; 0%N; 1%N])
           {| trace := [EvShowMenu [title; "/sdcard"] ["../"; "a.zip"; "Sub/"] 0;
                        EvShowMenu [title; "/sdcard/Sub"] ["../"] 0;
                        EvShowMenu [title; "/sdcard"] ["../"; "a.zip"; "Sub/"] 2];
              keys := [1%N] |}).
  reflexivity.
Defined.

(** ** An error of [stat] other than ENOENT *)

(** X23.  When [stat] of the ready path fails at iteration [k] with an
    [errno] other than ENOENT, the parent does not wait for the rest of the
    bound: after the [k] unsuccessful seconds it kills the child at once,
    tears down and returns INSTALL_ERROR, without calling the installer. *)
Theorem stat_error_ends_wait_at_once w vi st path st2 k :
  selects w vi st path st2 ->
  fork_ret w <> 0%Z ->
  k < SDCARD_INSTALL_TIMEOUT ->
  quiet_until w k = true ->
  waitpid_nohang w k <> (-1)%Z ->
  fst (stat_host w k) = (-1)%Z ->
  snd (stat_host w k) <> ENOENT ->
  ApplyFromStorage w vi st
  = (Ret INSTALL_ERROR,
     log st2 (announce path ++ rounds w (fork_ret w) k
              ++ [EvWaitpid (fork_ret w) WNOHANG;
                  EvStat (FUSE_SIDELOAD_HOST_PATHNAME (paths w));
                  EvKill (fork_ret w) SIGKILL;
                  EvStat (FUSE_SIDELOAD_HOST_EXIT_PATHNAME (paths w));
                  EvWaitpid (fork_ret w) 0; EvVolumeUnmount (mId vi)])).
Proof.
  intros Hsel Hf Hk Hq Hw Hs He.
  apply apply_gives_up; try assumption.
  apply Z.eqb_neq in He; now rewrite He.
Qed.

Lemma stat_error_ends_wait_at_once_witness :
  ApplyFromStorage (Scenario.emmc 77%Z Scenario.running denied_at_2
                                  (fun _ => INSTALL_SUCCESS) true true)
                   Scenario.vi (Scenario.start [1%N])
  = (Ret INSTALL_ERROR,
     log Scenario.chosen
         (announce "/sdcard/a.zip"
          ++ rounds (Scenario.emmc 77%Z Scenario.running denied_at_2
                                   (fun _ => INSTALL_SUCCESS) true true) 77%Z 2
          ++ [EvWaitpid 77%Z WNOHANG; EvStat "/sideload/package.zip"; EvKill 77%Z SIGKILL;
              EvStat "/sideload/exit"; EvWaitpid 77%Z 0; EvVolumeUnmount "sd1"])).
Proof.
  apply (stat_error_ends_wait_at_once
           (Scenario.emmc 77%Z Scenario.running denied_at_2
                          (fun _ => INSTALL_SUCCESS) true true)
           Scenario.vi (Scenario.start [1%N]) "/sdcard/a.zip" Scenario.chosen 2).
  - pick_a_zip.
  - discriminate.
  - unfold SDCARD_INSTALL_TIMEOUT; lia.
  - reflexivity.
  - discriminate.
  - reflexivity.
  - discriminate.
Defined.

(** ** A failed non-blocking wait *)

(** X24.  If the non-blocking wait of polling iteration [k] fails (returns
    -1) after [k] iterations in which it did not fail and the ready path was
    absent, the loop stops at that wait: ApplyFromStorage returns
    INSTALL_ERROR, and after the fork it has made the [k] wait/stat/sleep
    rounds, that one wait and the unmount, so no kill, no blocking wait and
    no installer call. *)
Theorem failed_wait_stops_polling w vi st path st2 k :
  selects w vi st path st2 ->
  fork_ret w <> 0%Z ->
  k < SDCARD_INSTALL_TIMEOUT ->
  quiet_until w k = true ->
  waitpid_nohang w k = (-1)%Z ->
  exists evs,
    ApplyFromStorage w vi st = (Ret INSTALL_ERROR, log st2 (announce path ++ evs))
    /\ evs = rounds w (fork_ret w) k
             ++ [EvWaitpid (fork_ret w) WNOHANG; EvVolumeUnmount (mId vi)]
    /\ count is_kill evs = 0
    /\ count is_blocking_wait evs = 0
    /\ installs_of evs = [].
Proof.
  intros Hsel Hf Hk Hq Hw; eexists; split; [|split; [reflexivity|]].
  - now apply apply_wait_fails.
  - rewrite !count_app, installs_of_app, count_rounds_kill, count_rounds_blocking,
      installs_rounds; repeat split.
Qed.

Lemma failed_wait_stops_polling_witness :
  exists evs,
    ApplyFromStorage (Scenario.emmc 77%Z fails_at_3 Scenario.absent
                                    (fun _ => INSTALL_SUCCESS) true true)
                     Scenario.vi (Scenario.start [1%N])
    = (Ret INSTALL_ERROR, log Scenario.chosen (announce "/sdcard/a.zip" ++ evs))
    /\ evs = rounds (Scenario.emmc 77%Z fails_at_3 Scenario.absent
                                   (fun _ => INSTALL_SUCCESS) true true) 77%Z 3
             ++ [EvWaitpid 77%Z WNOHANG; EvVolumeUnmount "sd1"]
    /\ count is_kill evs = 0
    /\ count is_blocking_wait evs = 0
    /\ installs_of evs = [].
Proof.
  apply (failed_wait_stops_polling
           (Scenario.emmc 77%Z fails_at_3 Scenario.absent (fun _ => INSTALL_SUCCESS) true true)
           Scenario.vi (Scenario.start [1%N]) "/sdcard/a.zip" Scenario.chosen 3).
  - pick_a_zip.
  - discriminate.
  - unfold SDCARD_INSTALL_TIMEOUT; lia.
  - reflexivity.
  - reflexivity.
Defined.
